(** * Chirag Battery API: a shallow embedding of [main.py] and [schemas.py]

    The development follows the layers of the service:
    - [Json], [Document]: request bodies and stored documents;
    - [Schemas]: the two pydantic models of [schemas.py] and their validation;
    - [Effects]: the global store handle [db], exceptions and [try/except];
    - [Pcre]: the fragment of the store's regular expressions that is given a
      meaning here;
    - [Mongo]: the operations of the document store the code calls;
    - [DatabaseModule]: [create_document] and [get_documents];
    - [Main]: the handlers and the startup hook of [main.py];
    - the properties of the service.

    Text is modelled as Rocq [string]s, that is byte strings: a Python [str]
    is read as its UTF-8 encoding. *)

From Stdlib Require Import ZArith QArith String Ascii List Bool Lia.
From stdpp Require Import base option gmap strings list pretty.

Set Warnings "-register-all".
Open Scope string_scope.
Open Scope list_scope.
(* QArith rebinds the comparison notations; stdpp's come last. *)
Close Scope Q_scope.

(** ** JSON request bodies *)

Module Json.

Inductive json :=
| JNull
| JBool (b : bool)
| JInt (z : Z)
| JFloat (q : Q)
| JStr (s : string)
| JArray (items : list json)
| JObject (members : list (string * json)).

(** A request body that parsed to a JSON object: member name to value. *)
Abbreviation body := (gmap string json).

End Json.
Export Json.

(** ** Stored documents *)

Module Document.

(** The values this service stores in a document.  [VObjectId] is the
    identifier the store assigns on insertion. *)
Inductive value :=
| VNone
| VBool (b : bool)
| VInt (z : Z)
| VFloat (q : Q)
| VStr (s : string)
| VObjectId (n : nat).

(** A Python [dict] with string keys. *)
Abbreviation document := (gmap string value).

Definition of_optional {A} (inj : A -> value) (o : option A) : value :=
  match o with
  | Some a => inj a
  | None => VNone
  end.

(** [model_dump()] of a pydantic model, and [dict.copy()] of a plain dict:
    what [create_document] stores for either kind of argument. *)
Class ModelDump (A : Type) := model_dump : A -> document.

#[export] Instance dict_dump : ModelDump document := fun d => d.

End Document.
Export Document.

(** ** schemas.py *)

Module Schemas.

(** Pydantic coerces JSON values into [float], [int] and [bool] fields in its
    lax mode (numeric strings, 0/1 for booleans, ...).  Those conversions are
    the library's, not this repository's: validation is parametric in them.
    [None] is a value the library refuses for the field type. *)
Class Coercions := {
  to_float : json -> option Q;
  to_int : json -> option Z;
  to_bool : json -> option bool
}.

(** The coercions restricted to the JSON-native forms, for running examples. *)
Definition native : Coercions := {|
  to_float j := match j with
                | JInt z => Some (inject_Z z)
                | JFloat q => Some q
                | _ => None
                end;
  to_int j := match j with JInt z => Some z | _ => None end;
  to_bool j := match j with JBool b => Some b | _ => None end
|}.

(** class Product(BaseModel) *)
Record Product := {
  name : string;
  brand : string;
  type : string;
  capacity_ah : option Q;
  warranty_months : option Z;
  price : option Q;
  description : option string;
  in_stock : bool
}.

(** class Inquiry(BaseModel) *)
Record Inquiry := {
  inq_name : string;
  phone : string;
  message : option string;
  product_type : option string;
  inq_brand : option string;
  preferred_contact : string;
  city : option string
}.

(** The [Literal[...]] sets of the two models. *)
Definition brand_literals : list string := ["Amaron"; "Exide"; "Luminous"].
Definition type_literals : list string :=
  ["bike-battery"; "car-battery"; "inverter"; "inverter-battery"].
Definition contact_literals : list string := ["call"; "whatsapp"].

(** *** Field validators

    Each returns [None] when the field is in error.  A field that is absent
    takes its default without validation; [Field(...)] has no default, so an
    absent required field is an error. *)

(** [f: str = Field(...)] *)
Definition required_str (f : string) (b : body) : option string :=
  match b !! f with
  | Some (JStr s) => Some s
  | _ => None
  end.

(** [f: Literal[...] = Field(...)] *)
Definition required_literal (allowed : list string) (f : string) (b : body)
  : option string :=
  match b !! f with
  | Some (JStr s) => if bool_decide (s ∈ allowed) then Some s else None
  | _ => None
  end.

(** [f: Literal[...] = Field(d)] *)
Definition literal_with_default (allowed : list string) (d : string)
    (f : string) (b : body) : option string :=
  match b !! f with
  | None => Some d
  | Some (JStr s) => if bool_decide (s ∈ allowed) then Some s else None
  | Some _ => None
  end.

(** [f: Optional[str] = Field(d)] *)
Definition optional_str (d : option string) (f : string) (b : body)
  : option (option string) :=
  match b !! f with
  | None => Some d
  | Some JNull => Some None
  | Some (JStr s) => Some (Some s)
  | Some _ => None
  end.

Section Numeric.
Context {C : Coercions}.

(** [f: Optional[float] = Field(None, ge=0)] *)
Definition optional_float_ge0 (f : string) (b : body) : option (option Q) :=
  match b !! f with
  | None => Some None
  | Some JNull => Some None
  | Some j =>
      match to_float j with
      | Some q => if Qle_bool 0 q then Some (Some q) else None
      | None => None
      end
  end.

(** [f: Optional[int] = Field(None, ge=0)] *)
Definition optional_int_ge0 (f : string) (b : body) : option (option Z) :=
  match b !! f with
  | None => Some None
  | Some JNull => Some None
  | Some j =>
      match to_int j with
      | Some z => if (0 <=? z)%Z then Some (Some z) else None
      | None => None
      end
  end.

(** [f: bool = Field(d)] *)
Definition bool_with_default (d : bool) (f : string) (b : body) : option bool :=
  match b !! f with
  | None => Some d
  | Some j => to_bool j
  end.

(** The location reported for a field in error. *)
Definition loc {A} (f : string) (r : option A) : list string :=
  match r with
  | Some _ => []
  | None => [f]
  end.

(** Validation of a request body against [Product]: the model, or the
    fields in error, in declaration order. *)
Definition validate_product (b : body) : list string + Product :=
  let r_name := required_str "name" b in
  let r_brand := required_literal brand_literals "brand" b in
  let r_type := required_literal type_literals "type" b in
  let r_capacity := optional_float_ge0 "capacity_ah" b in
  let r_warranty := optional_int_ge0 "warranty_months" b in
  let r_price := optional_float_ge0 "price" b in
  let r_description := optional_str None "description" b in
  let r_stock := bool_with_default true "in_stock" b in
  match r_name, r_brand, r_type, r_capacity,
        r_warranty, r_price, r_description, r_stock with
  | Some n, Some br, Some ty, Some ca, Some wa, Some pr, Some de, Some st =>
      inr {| name := n; brand := br; type := ty; capacity_ah := ca;
             warranty_months := wa; price := pr; description := de;
             in_stock := st |}
  | _, _, _, _, _, _, _, _ =>
      inl (loc "name" r_name ++ loc "brand" r_brand ++ loc "type" r_type
           ++ loc "capacity_ah" r_capacity
           ++ loc "warranty_months" r_warranty ++ loc "price" r_price
           ++ loc "description" r_description ++ loc "in_stock" r_stock)
  end.

End Numeric.

(** Validation of a request body against [Inquiry]. *)
Definition validate_inquiry (b : body) : list string + Inquiry :=
  let r_name := required_str "name" b in
  let r_phone := required_str "phone" b in
  let r_message := optional_str None "message" b in
  let r_ptype := optional_str None "product_type" b in
  let r_brand := optional_str None "brand" b in
  let r_contact :=
    literal_with_default contact_literals "whatsapp" "preferred_contact" b in
  let r_city := optional_str (Some "Veraval, Gir Somnath") "city" b in
  match r_name, r_phone, r_message, r_ptype, r_brand, r_contact, r_city with
  | Some n, Some ph, Some me, Some pt, Some br, Some co, Some ci =>
      inr {| inq_name := n; phone := ph; message := me; product_type := pt;
             inq_brand := br; preferred_contact := co; city := ci |}
  | _, _, _, _, _, _, _ =>
      inl (loc "name" r_name ++ loc "phone" r_phone
           ++ loc "message" r_message ++ loc "product_type" r_ptype
           ++ loc "brand" r_brand ++ loc "preferred_contact" r_contact
           ++ loc "city" r_city)
  end.

#[export] Instance product_dump : ModelDump Product := fun p =>
  <["name" := VStr (name p)]>
  (<["brand" := VStr (brand p)]>
  (<["type" := VStr (type p)]>
  (<["capacity_ah" := of_optional VFloat (capacity_ah p)]>
  (<["warranty_months" := of_optional VInt (warranty_months p)]>
  (<["price" := of_optional VFloat (price p)]>
  (<["description" := of_optional VStr (description p)]>
  (<["in_stock" := VBool (in_stock p)]> ∅))))))).

#[export] Instance inquiry_dump : ModelDump Inquiry := fun i =>
  <["name" := VStr (inq_name i)]>
  (<["phone" := VStr (phone i)]>
  (<["message" := of_optional VStr (message i)]>
  (<["product_type" := of_optional VStr (product_type i)]>
  (<["brand" := of_optional VStr (inq_brand i)]>
  (<["preferred_contact" := VStr (preferred_contact i)]>
  (<["city" := of_optional VStr (city i)]> ∅)))))).

End Schemas.
Export Schemas.

(** ** The store, exceptions and the global handle *)

Module Effects.

(** The state of the document store behind the handle [db].

    [outage] schedules connection loss: [None] is a store that stays
    reachable; [Some k] is a store that answers [k] more operations and
    raises on every operation after them. *)
Record Database := {
  db_name : string;
  collections : gmap string (list document);
  next_id : nat;
  outage : option nat
}.

(** The exceptions that reach the code of [main.py]. *)
Inductive exn :=
| HTTPException (status_code : nat) (detail : string)
| ServiceUnavailable (msg : string)
| TypeError (msg : string).

(** [str(e)] *)
Definition exn_str (e : exn) : string :=
  match e with
  | HTTPException _ detail => detail
  | ServiceUnavailable msg => msg
  | TypeError msg => msg
  end.

(** The result of running a piece of the program.  [Unmodelled] marks a run
    that left the part of the store's behaviour described here; it is not a
    Python exception and no [except] clause catches it. *)
Inductive outcome (A : Type) :=
| Return (a : A)
| Raise (e : exn)
| Unmodelled.
Arguments Return {A} a.
Arguments Raise {A} e.
Arguments Unmodelled {A}.

(** A computation reads and updates the module-level [db]: [None] is the
    Python [None], a handle that was never connected. *)
Definition App (A : Type) : Type := option Database -> outcome A * option Database.

Definition ret {A} (a : A) : App A := fun db => (Return a, db).

Definition bind {A B} (m : App A) (k : A -> App B) : App B := fun db =>
  match m db with
  | (Return a, db') => k a db'
  | (Raise e, db') => (Raise e, db')
  | (Unmodelled, db') => (Unmodelled, db')
  end.

Definition raise {A} (e : exn) : App A := fun db => (Raise e, db).

(** [try: body / except Exception as e: handler(e)] *)
Definition try_except {A} (body : App A) (handler : exn -> App A) : App A :=
  fun db =>
    match body db with
    | (Raise e, db') => handler e db'
    | r => r
    end.

(** [for x in xs: body(x)] *)
Fixpoint for_each {A} (xs : list A) (body : A -> App unit) : App unit :=
  match xs with
  | [] => ret tt
  | x :: xs' => bind (body x) (fun _ => for_each xs' body)
  end.

End Effects.
Export Effects.

Declare Scope app_scope.
Delimit Scope app_scope with app.
Notation "x <- m ;; k" := (bind m (fun x => k))
  (at level 100, m at next level, right associativity) : app_scope.
Notation "m ;;; k" := (bind m (fun _ => k))
  (at level 100, right associativity) : app_scope.
Open Scope app_scope.

(** ** Regular expressions of the store *)

Module Pcre.

(** The store evaluates [{"$regex": p, "$options": o}] with a PCRE engine.
    A fragment is given a meaning here: patterns of ASCII characters whose
    only metacharacter is the dot, with no option or the option [i].  A
    pattern without a dot is searched in any subject: in UTF-8 no byte of a
    character outside ASCII is an ASCII byte, so comparing bytes is
    comparing characters.  A pattern with a dot, which stands for one
    character, is searched in ASCII subjects only.  Letter case is folded on
    ASCII letters.  Everything else is left without a meaning ([None]). *)

Inductive atom :=
| Lit (c : ascii)
| AnyChar.

Definition is_ascii (c : ascii) : bool := (nat_of_ascii c <? 128)%nat.

(** The characters PCRE treats specially outside a character class. *)
Definition metachars : list ascii :=
  list_ascii_of_string "\^$.|?*+()[]{}".

Definition is_meta (c : ascii) : bool := bool_decide (c ∈ metachars).

Definition compile_char (c : ascii) : option atom :=
  if negb (is_ascii c) then None
  else if Ascii.eqb c "." then Some AnyChar
  else if is_meta c then None
  else Some (Lit c).

Fixpoint compile (p : list ascii) : option (list atom) :=
  match p with
  | [] => Some []
  | c :: p' =>
      match compile_char c, compile p' with
      | Some a, Some r => Some (a :: r)
      | _, _ => None
      end
  end.

(** ASCII case folding. *)
Definition lower (c : ascii) : ascii :=
  let n := nat_of_ascii c in
  if ((65 <=? n) && (n <=? 90))%nat then ascii_of_nat (n + 32) else c.

Definition newline : ascii := ascii_of_nat 10.

Definition atom_matches (caseless : bool) (a : atom) (c : ascii) : bool :=
  match a with
  | Lit l => if caseless then Ascii.eqb (lower l) (lower c) else Ascii.eqb l c
  | AnyChar => negb (Ascii.eqb c newline)
  end.

(** The pattern matches a prefix of the subject. *)
Fixpoint match_here (caseless : bool) (r : list atom) (s : list ascii) : bool :=
  match r, s with
  | [], _ => true
  | a :: r', c :: s' => atom_matches caseless a c && match_here caseless r' s'
  | _ :: _, [] => false
  end.

(** The pattern matches somewhere in the subject (an unanchored search). *)
Fixpoint search (caseless : bool) (r : list atom) (s : list ascii) : bool :=
  match_here caseless r s ||
  match s with
  | [] => false
  | _ :: s' => search caseless r s'
  end.

Definition parse_options (o : string) : option bool :=
  if String.eqb o "" then Some false
  else if String.eqb o "i" then Some true
  else None.

Definition is_literal (a : atom) : bool :=
  match a with
  | Lit _ => true
  | AnyChar => false
  end.

Definition regex_search (pattern options subject : string) : option bool :=
  match parse_options options, compile (list_ascii_of_string pattern) with
  | Some caseless, Some r =>
      let s := list_ascii_of_string subject in
      if forallb is_ascii s || forallb is_literal r
      then Some (search caseless r s)
      else None
  | _, _ => None
  end.

End Pcre.
Export Pcre.

(** ** The document store *)

Module Mongo.

(** What [main.py] puts under a key of a filter: a string to equal, or a
    [{"$regex": pattern, "$options": options}] mapping. *)
Inductive condition :=
| Equals (s : string)
| Regex (pattern options : string).

Abbreviation query_filter := (gmap string condition).

(** Whether the value found under a key ([None]: key absent) meets the
    condition; no answer where the pattern has no meaning in [Pcre]. *)
Definition condition_holds (c : condition) (v : option value) : option bool :=
  match c, v with
  | Equals s, Some (VStr s') => Some (String.eqb s s')
  | Equals _, _ => Some false
  | Regex p o, Some (VStr s) => regex_search p o s
  | Regex p o, _ =>
      match regex_search p o "" with
      | Some _ => Some false
      | None => None
      end
  end.

(** A document matches a filter when it meets the condition of every key. *)
Definition document_matches (f : query_filter) (d : document) : option bool :=
  if bool_decide (map_Forall (fun k c => is_Some (condition_holds c (d !! k))) f)
  then Some (bool_decide
               (map_Forall (fun k c => condition_holds c (d !! k) = Some true) f))
  else None.

(** The matching documents, in stored order. *)
Fixpoint select (f : query_filter) (docs : list document)
  : option (list document) :=
  match docs with
  | [] => Some []
  | d :: ds =>
      match document_matches f d, select f ds with
      | Some b, Some r => Some (if b then d :: r else r)
      | _, _ => None
      end
  end.

(** [db[name]]: a collection that was never written is empty. *)
Definition collection (name : string) (d : Database) : list document :=
  default [] (collections d !! name).

Definition connection_lost : exn := ServiceUnavailable "connection lost".

(** Every operation first reaches the server, consuming the outage budget. *)
Definition operation {A} (op : Database -> outcome A * Database)
  : Database -> outcome A * Database := fun d =>
  match outage d with
  | None => op d
  | Some (S k) =>
      op {| db_name := db_name d; collections := collections d;
            next_id := next_id d; outage := Some k |}
  | Some O => (Raise connection_lost, d)
  end.

(** [db[name].count_documents(f)] *)
Definition count_documents (name : string) (f : query_filter)
  : Database -> outcome nat * Database :=
  operation (fun d =>
    match select f (collection name d) with
    | Some r => (Return (length r), d)
    | None => (Unmodelled, d)
    end).

(** [db[name].insert_one(doc).inserted_id]: the document is stored, after
    the others, under a fresh identifier.  Documents that already carry an
    ["_id"] are left without a meaning; this service never builds one. *)
Definition insert_one (name : string) (doc : document)
  : Database -> outcome nat * Database :=
  operation (fun d =>
    match doc !! "_id" with
    | Some _ => (Unmodelled, d)
    | None =>
        let oid := next_id d in
        let stored := <["_id" := VObjectId oid]> doc in
        (Return oid,
         {| db_name := db_name d;
            collections :=
              <[name := collection name d ++ [stored]]> (collections d);
            next_id := S oid; outage := outage d |})
    end).

(** [cursor.limit(n)]: the cursor yields at most [n] documents; a limit of
    zero is no limit, and a limit below zero counts as its absolute
    value. *)
Definition cursor_limit (n : Z) (docs : list document) : list document :=
  if (n =? 0)%Z then docs else take (Z.abs_nat n) docs.

(** [list(db[name].find(f).limit(n))] *)
Definition find (name : string) (f : query_filter) (n : Z)
  : Database -> outcome (list document) * Database :=
  operation (fun d =>
    match select f (collection name d) with
    | Some r => (Return (cursor_limit n r), d)
    | None => (Unmodelled, d)
    end).

(** [db.list_collection_names()] *)
Definition list_collection_names
  : Database -> outcome (list string) * Database :=
  operation (fun d => (Return (map_to_list (collections d)).*1, d)).

(** A method call on the module-level [db]; on [None] Python raises. *)
Definition on_db {A} (op : Database -> outcome A * Database) : App A := fun db =>
  match db with
  | Some d => let '(r, d') := op d in (r, Some d')
  | None => (Raise (TypeError "'NoneType' object has no such member"), None)
  end.

End Mongo.
Export Mongo.

(** ** database.py *)

Module DatabaseModule.

(** The identifier of an inserted document, as text. *)
Definition id_text (oid : nat) : string := pretty oid.

(** Modelled from the spec: [create_document] of [database.py], which is not
    among the sources.  It accepts a mapping of field to value, or a validated
    record coerced to such a mapping, inserts it into the named collection and
    returns the newly assigned identifier as text; an unreachable store
    signals [ServiceUnavailable]. *)
Definition create_document {A} `{ModelDump A} (collection_name : string)
    (data : A) : App string := fun db =>
  match db with
  | None => (Raise (ServiceUnavailable "Database not available"), None)
  | Some _ =>
      (oid <- on_db (insert_one collection_name (model_dump data)) ;;
       ret (id_text oid)) db
  end.

(** Modelled from the spec: [get_documents] of [database.py], which is not
    among the sources.  It accepts an equality or pattern filter and returns
    up to [limit] matching records in the store's natural order, here the
    order of insertion, identifiers included; an unreachable store signals
    [ServiceUnavailable].  The limit is handed to the cursor of the store as
    it comes: the spec gives no reading of a limit of zero or below, and
    there the cursor's own applies. *)
Definition get_documents (collection_name : string)
    (filter_dict : query_filter) (limit : Z) : App (list document) := fun db =>
  match db with
  | None => (Raise (ServiceUnavailable "Database not available"), None)
  | Some _ => on_db (find collection_name filter_dict limit) db
  end.

End DatabaseModule.
Export DatabaseModule.

(** ** main.py *)

Module Main.

Definition BRANDS : list string := ["Amaron"; "Exide"; "Luminous"].
Definition TYPES : list string :=
  ["bike-battery"; "car-battery"; "inverter"; "inverter-battery"].

(** [db is None] *)
Definition db_is_none : App bool := fun db =>
  (Return (match db with None => true | Some _ => false end), db).

(** A sample of the startup hook, as the [dict] literal of the source. *)
Definition sample (name brand type : string) (capacity_ah : option Q)
    (warranty_months : Z) (price : Q) (description : string) : document :=
  <["name" := VStr name]>
  (<["brand" := VStr brand]>
  (<["type" := VStr type]>
  (<["capacity_ah" := of_optional VFloat capacity_ah]>
  (<["warranty_months" := VInt warranty_months]>
  (<["price" := VFloat price]>
  (<["description" := VStr description]>
  (<["in_stock" := VBool true]> ∅))))))).

Definition samples : list document := [
  sample "Amaron Pro Rider" "Amaron" "bike-battery" (Some 9.0%Q) 48
    1699.0%Q "Maintenance-free bike battery";
  sample "Exide Xplore" "Exide" "bike-battery" (Some 9.0%Q) 48
    1599.0%Q "Reliable performance for bikes";
  sample "Amaron Flo 55B24L" "Amaron" "car-battery" (Some 45.0%Q) 48
    5499.0%Q "High cranking power";
  sample "Exide Mileage 35L" "Exide" "car-battery" (Some 35.0%Q) 44
    4899.0%Q "Long life, low maintenance";
  sample "Luminous Zelio+ 1100" "Luminous" "inverter" None 24
    6999.0%Q "Pure sine wave inverter";
  sample "Luminous RC 18000" "Luminous" "inverter-battery" (Some 150.0%Q) 36
    13499.0%Q "Tubular inverter battery"
].

(** [@app.on_event("startup") async def seed_products()] *)
Definition seed_products : App unit :=
  none <- db_is_none ;;
  if none then ret tt
  else
    try_except
      (count <- on_db (count_documents "product" ∅) ;;
       if (count =? 0)%nat
       then for_each samples
              (fun s => create_document "product" s ;;; ret tt)
       else ret tt)
      (fun _ => ret tt).

(** The body of a successful listing: [{"items": ..., "total": ...}]. *)
Record ProductsListing := {
  items : list document;
  total : nat
}.

(** [{"id": ..., "message": ...}] *)
Record Created := {
  id : string;
  created_message : string
}.

(** Truth value of an [Optional[str]]: [None] and the empty string are
    false. *)
Definition truthy (o : option string) : option string :=
  match o with
  | Some "" => None
  | Some s => Some s
  | None => None
  end.

Definition not_connected : exn := HTTPException 500 "Database not connected".

(** [def list_products(brand=None, type=None, q=None, limit=50)] *)
Definition list_products (brand type q : option string) (limit : option Z)
  : App ProductsListing :=
  let limit := default 50%Z limit in
  none <- db_is_none ;;
  if none then raise not_connected
  else
    let filters : query_filter := ∅ in
    let filters :=
      match truthy brand with
      | Some b => <["brand" := Equals b]> filters
      | None => filters
      end in
    let filters :=
      match truthy type with
      | Some t => <["type" := Equals t]> filters
      | None => filters
      end in
    let filters :=
      match truthy q with
      | Some p => <["name" := Regex p "i"]> filters
      | None => filters
      end in
    items <- get_documents "product" filters limit ;;
    let items := delete "_id" <$> items in
    ret {| items := items; total := length items |}.

(** [def add_product(product: ProductSchema)] *)
Definition add_product (product : Product) : App Created :=
  none <- db_is_none ;;
  if none then raise not_connected
  else
    _id <- create_document "product" product ;;
    ret {| id := _id; created_message := "Product added" |}.

(** [def create_inquiry(inquiry: InquirySchema)] *)
Definition create_inquiry (inquiry : Inquiry) : App Created :=
  none <- db_is_none ;;
  if none then raise not_connected
  else
    _id <- create_document "inquiry" inquiry ;;
    ret {| id := _id;
           created_message := "Thanks! We will contact you shortly." |}.

End Main.
Export Main.

(** ** The diagnostics handler *)

Module Diagnostics.

(** The values of the diagnostic [dict]. *)
Inductive diag :=
| DNone
| DStr (s : string)
| DList (names : list string).

Abbreviation report := (gmap string diag).

(** The process environment, and the truth value of [os.getenv(k)]. *)
Abbreviation environ := (gmap string string).

Definition getenv_set (env : environ) (k : string) : bool :=
  match env !! k with
  | Some "" => false
  | Some _ => true
  | None => false
  end.

(** [str(e)[:50]] *)
Definition str50 (e : exn) : string := String.substring 0 50 (exn_str e).

Definition initial_report : report :=
  <["backend" := DStr "✅ Running"]>
  (<["database" := DStr "❌ Not Available"]>
  (<["database_url" := DNone]>
  (<["database_name" := DNone]>
  (<["connection_status" := DStr "Not Connected"]>
  (<["collections" := DList []]> ∅))))).

(** The outer [try] block.  It raises only from the probe of the collection
    names, which sits in a [try] of its own. *)
Definition probe (response : report) : App report := fun db =>
  match db with
  | Some d =>
      let response := <["database" := DStr "✅ Available"]> response in
      let response := <["database_url" := DStr "✅ Configured"]> response in
      let response := <["database_name" := DStr (db_name d)]> response in
      let response := <["connection_status" := DStr "Connected"]> response in
      try_except
        (collections <- on_db list_collection_names ;;
         let response := <["collections" := DList (take 10 collections)]> response in
         ret (<["database" := DStr "✅ Connected & Working"]> response))
        (fun e =>
           ret (<["database" := DStr ("⚠️  Connected but Error: " +:+ str50 e)]>
                  response))
        db
  | None =>
      (Return (<["database" := DStr "⚠️  Available but not initialized"]> response),
       db)
  end.

(** [def test_database()] *)
Definition test_database (env : environ) : App report :=
  let response := initial_report in
  response <-
    try_except (probe response)
      (fun e => ret (<["database" := DStr ("❌ Error: " +:+ str50 e)]> response)) ;;
  let response :=
    <["database_url" :=
        DStr (if getenv_set env "DATABASE_URL" then "✅ Set" else "❌ Not Set")]>
      response in
  let response :=
    <["database_name" :=
        DStr (if getenv_set env "DATABASE_NAME" then "✅ Set" else "❌ Not Set")]>
      response in
  ret response.

End Diagnostics.
Export Diagnostics.

(** ** The routes *)

Module Routes.

(** What the framework sends back. *)
Inductive http_response (A : Type) :=
| Response (status : nat) (content : A)
| ErrorResponse (status : nat) (detail : string)
| RequestValidationError (fields : list string).
Arguments Response {A} status content.
Arguments ErrorResponse {A} status detail.
Arguments RequestValidationError {A} fields.

Definition status {A} (r : http_response A) : nat :=
  match r with
  | Response s _ => s
  | ErrorResponse s _ => s
  | RequestValidationError _ => 422
  end.

(** A handler's result as a response: its value under the route's status
    code, an [HTTPException] under its own, any other exception as 500. *)
Definition respond {A} (status_code : nat) (handler : App A)
  : App (http_response A) := fun db =>
  match handler db with
  | (Return a, db') => (Return (Response status_code a), db')
  | (Raise (HTTPException s detail), db') => (Return (ErrorResponse s detail), db')
  | (Raise _, db') => (Return (ErrorResponse 500 "Internal Server Error"), db')
  | (Unmodelled, db') => (Unmodelled, db')
  end.

(** [GET /api/products] *)
Definition get_api_products (brand type q : option string) (limit : option Z)
  : App (http_response ProductsListing) :=
  respond 200 (list_products brand type q limit).

(** [POST /api/products]: the body is validated against [Product] before
    the handler runs. *)
Definition post_api_products {C : Coercions} (b : body)
  : App (http_response Created) :=
  match validate_product b with
  | inl fields => ret (RequestValidationError fields)
  | inr product => respond 201 (add_product product)
  end.

(** [POST /api/inquiries] *)
Definition post_api_inquiries (b : body) : App (http_response Created) :=
  match validate_inquiry b with
  | inl fields => ret (RequestValidationError fields)
  | inr inquiry => respond 201 (create_inquiry inquiry)
  end.

(** [GET /test] *)
Definition get_test (env : environ) : App (http_response report) :=
  respond 200 (test_database env).

End Routes.
Export Routes.

(** ** Vocabulary of the properties *)

(** A store that stays reachable. *)
Definition reachable (d : Database) : Prop := outage d = None.

(** The store after one more document entered a collection. *)
Definition stored (name : string) (doc : document) (d : Database) : Database :=
  {| db_name := db_name d;
     collections :=
       <[name := collection name d ++ [<["_id" := VObjectId (next_id d)]> doc]]>
         (collections d);
     next_id := S (next_id d); outage := outage d |}.

(** The store after it answered one operation. *)
Definition spend (d : Database) : Database :=
  match outage d with
  | Some (S k) =>
      {| db_name := db_name d; collections := collections d;
         next_id := next_id d; outage := Some k |}
  | _ => d
  end.

(** A run that ended inside the model: it returned or it raised. *)
Definition settled {A} (r : outcome A * option Database) : Prop :=
  match fst r with
  | Unmodelled => False
  | _ => True
  end.

(** The [try] block of [seed_products]. *)
Definition seeding : App unit :=
  count <- on_db (count_documents "product" ∅) ;;
  if (count =? 0)%nat
  then for_each samples (fun s => create_document "product" s ;;; ret tt)
  else ret tt.

(** The filter [list_products] builds from a brand and a type. *)
Definition brand_type_filter (br ty : string) : query_filter :=
  <["type" := Equals ty]> (<["brand" := Equals br]> ∅).

(** The reading of a text query as a literal: [q] occurs in [s] when
    letter case is ignored. *)
Definition casefold (s : list ascii) : list ascii := lower <$> s.



(** Queries of ASCII characters without metacharacters. *)
Definition plain_char (c : ascii) : bool := is_ascii c && negb (is_meta c).

Definition plain (q : string) : bool :=
  forallb plain_char (list_ascii_of_string q).

(** What a text query asks of a document when it is read as a literal: the
    empty query asks nothing. *)
Definition contains_text (q : string) (doc : document) : bool :=
  match q, doc !! "name" with
  | "", _ => true
  | _, Some (VStr s) =>
      search true (Lit <$> list_ascii_of_string q) (list_ascii_of_string s)
  | _, _ => false
  end.

(** The status of an answer and a view of its content; [None] when the
    route did not answer with a content. *)
Definition answered {A B} (view : A -> B)
    (r : outcome (http_response A) * option Database) : option (nat * B) :=
  match fst r with
  | Return (Response s a) => Some (s, view a)
  | _ => None
  end.

Definition names (docs : list document) : list (option value) :=
  (fun d : document => d !! "name") <$> docs.

Definition products_of (db : option Database) : list document :=
  match db with
  | Some d => collection "product" d
  | None => []
  end.

(** The entry of the diagnostic report for an environment variable. *)
Definition env_flag (env : environ) (k : string) : diag :=
  DStr (if getenv_set env k then "✅ Set" else "❌ Not Set").

(** ** Stores and requests of the examples *)

Definition fresh_store : Database :=
  {| db_name := "chirag"; collections := ∅; next_id := 0; outage := None |}.

(** The store after startup on [fresh_store]: the six samples. *)
Definition seeded : option Database := snd (seed_products (Some fresh_store)).

Definition seeded_store : Database := default fresh_store seeded.

(** A store that was never reachable, and one that is lost after the
    count and two insertions. *)
Definition unreachable_store : Database :=
  {| db_name := "chirag"; collections := ∅; next_id := 0; outage := Some 0 |}.

Definition failing_store : Database :=
  {| db_name := "chirag"; collections := ∅; next_id := 0; outage := Some 3 |}.

Definition inverter_body : body :=
  {[ "name" := JStr "Exide Star 1050"; "brand" := JStr "Exide";
     "type" := JStr "inverter"; "warranty_months" := JInt 24 ]}.

Definition inverter : Product :=
  {| name := "Exide Star 1050"; brand := "Exide"; type := "inverter";
     capacity_ah := None; warranty_months := Some 24%Z; price := None;
     description := None; in_stock := true |}.

Definition nameless_body : body :=
  {[ "name" := JStr ""; "brand" := JStr "Exide"; "type" := JStr "car-battery" ]}.

Definition nameless : Product :=
  {| name := ""; brand := "Exide"; type := "car-battery"; capacity_ah := None;
     warranty_months := None; price := None; description := None;
     in_stock := true |}.

Definition duracell_body : body :=
  {[ "name" := JStr "Duracell Ultra"; "brand" := JStr "Duracell";
     "type" := JStr "car-battery" ]}.

Definition unnamed_body : body :=
  {[ "brand" := JStr "Amaron"; "type" := JStr "bike-battery" ]}.

Definition callback_body : body :=
  {[ "name" := JStr "Asha"; "phone" := JStr "9876543210" ]}.

(** The seeded catalogue with one more product, whose name has a letter
    outside ASCII. *)
Definition accented : Product :=
  {| name := "Exide Café 900"; brand := "Exide"; type := "inverter";
     capacity_ah := None; warranty_months := None; price := None;
     description := None; in_stock := true |}.

Definition accented_store : Database :=
  stored "product" (model_dump accented) seeded_store.

(** The first two products of the seeded catalogue, as a listing. *)
Definition first_two : ProductsListing :=
  {| items := delete "_id" <$> take 2 (collection "product" seeded_store);
     total := 2 |}.

(** ** The static routes *)

Module Static.

(** [def read_root()] *)
Definition read_root : gmap string string :=
  {[ "shop" := "Chirag Battery"; "location" := "Veraval, Gir Somnath";
     "message" := "Welcome to the API" ]}.

(** [def get_brands()] *)
Definition get_brands : gmap string (list string) := {[ "brands" := BRANDS ]}.

(** [def get_types()] *)
Definition get_types : gmap string (list string) := {[ "types" := TYPES ]}.

(** [list(ProductSchema.model_fields.keys())]: the fields of the class in
    the order of their declaration. *)
Definition product_model_fields : list string :=
  ["name"; "brand"; "type"; "capacity_ah"; "warranty_months"; "price";
   "description"; "in_stock"].

(** [list(InquirySchema.model_fields.keys())] *)
Definition inquiry_model_fields : list string :=
  ["name"; "phone"; "message"; "product_type"; "brand"; "preferred_contact";
   "city"].

(** An entry of the ["collections"] list of [get_schema]. *)
Record CollectionSchema := {
  schema_name : string;
  schema_fields : list string
}.

(** [def get_schema()] *)
Definition get_schema : gmap string (list CollectionSchema) :=
  {[ "collections" :=
       [ {| schema_name := "product"; schema_fields := product_model_fields |};
         {| schema_name := "inquiry"; schema_fields := inquiry_model_fields |} ] ]}.

End Static.
Export Static.

(** ** The service as a machine *)

(** The requests the process serves, startup included. *)
Inductive request :=
| Startup
| ListProducts (brand type q : option string) (limit : option Z)
| AddProduct (b : body)
| CreateInquiry (b : body)
| Diagnose (env : environ).

(** The state of the store handle after a request was served. *)
Definition after {C : Coercions} (r : request) (db : option Database)
  : option Database :=
  match r with
  | Startup => snd (seed_products db)
  | ListProducts brand type q limit =>
      snd (get_api_products brand type q limit db)
  | AddProduct b => snd (post_api_products b db)
  | CreateInquiry b => snd (post_api_inquiries b db)
  | Diagnose env => snd (get_test env db)
  end.

Definition after_all {C : Coercions} (rs : list request)
    (db : option Database) : option Database :=
  foldl (fun db r => after r db) db rs.

(** ** Further vocabulary *)

(** The constraints [schemas.py] puts on a [Product]. *)
Definition schema_valid (p : Product) : Prop :=
  brand p ∈ brand_literals
  /\ type p ∈ type_literals
  /\ (forall q, capacity_ah p = Some q -> (0 <= q)%Q)
  /\ (forall z, warranty_months p = Some z -> (0 <= z)%Z)
  /\ (forall q, price p = Some q -> (0 <= q)%Q).

(** A stored document that is the dump of a valid product. *)
Definition valid_record (doc : document) : Prop :=
  exists p, schema_valid p /\ delete "_id" doc = model_dump p.

(** Every product of the store is the dump of a valid product. *)
Definition valid_catalogue (db : option Database) : Prop :=
  Forall valid_record (products_of db).

(** The fields in error of a body checked against [Product], as
    [validate_product] gathers them. *)
Definition product_errors {C : Coercions} (b : body) : list string :=
  loc "name" (required_str "name" b)
  ++ loc "brand" (required_literal brand_literals "brand" b)
  ++ loc "type" (required_literal type_literals "type" b)
  ++ loc "capacity_ah" (optional_float_ge0 "capacity_ah" b)
  ++ loc "warranty_months" (optional_int_ge0 "warranty_months" b)
  ++ loc "price" (optional_float_ge0 "price" b)
  ++ loc "description" (optional_str None "description" b)
  ++ loc "in_stock" (bool_with_default true "in_stock" b).

(** Documents as the store holds them after insertion from identifier [n]
    on. *)
Fixpoint stamp (n : nat) (docs : list document) : list document :=
  match docs with
  | [] => []
  | s :: rest => <["_id" := VObjectId n]> s :: stamp (S n) rest
  end.

(** The store after a list of documents entered a collection. *)
Definition stored_all (name : string) (docs : list document) (d : Database)
  : Database :=
  foldl (fun d s => stored name s (spend d)) d docs.

(** What the equality filters of a listing ask of a document. *)
Definition field_is (k : string) (o : option string) (doc : document) : bool :=
  match truthy o, doc !! k with
  | Some s, Some (VStr s') => String.eqb s s'
  | Some _, _ => false
  | None, _ => true
  end.

Definition in_scope (brand type : option string) (doc : document) : bool :=
  field_is "brand" brand doc && field_is "type" type doc.

(** The filter [list_products] builds from its three parameters. *)
Definition listing_filter (brand type q : option string) : query_filter :=
  let filters : query_filter := ∅ in
  let filters :=
    match truthy brand with
    | Some b => <["brand" := Equals b]> filters
    | None => filters
    end in
  let filters :=
    match truthy type with
    | Some t => <["type" := Equals t]> filters
    | None => filters
    end in
  match truthy q with
  | Some p => <["name" := Regex p "i"]> filters
  | None => filters
  end.

(** The products the startup hook writes, as models. *)
Definition sample_products : list Product := [
  {| name := "Amaron Pro Rider"; brand := "Amaron"; type := "bike-battery";
     capacity_ah := Some 9.0%Q; warranty_months := Some 48%Z;
     price := Some 1699.0%Q;
     description := Some "Maintenance-free bike battery"; in_stock := true |};
  {| name := "Exide Xplore"; brand := "Exide"; type := "bike-battery";
     capacity_ah := Some 9.0%Q; warranty_months := Some 48%Z;
     price := Some 1599.0%Q;
     description := Some "Reliable performance for bikes"; in_stock := true |};
  {| name := "Amaron Flo 55B24L"; brand := "Amaron"; type := "car-battery";
     capacity_ah := Some 45.0%Q; warranty_months := Some 48%Z;
     price := Some 5499.0%Q;
     description := Some "High cranking power"; in_stock := true |};
  {| name := "Exide Mileage 35L"; brand := "Exide"; type := "car-battery";
     capacity_ah := Some 35.0%Q; warranty_months := Some 44%Z;
     price := Some 4899.0%Q;
     description := Some "Long life, low maintenance"; in_stock := true |};
  {| name := "Luminous Zelio+ 1100"; brand := "Luminous"; type := "inverter";
     capacity_ah := None; warranty_months := Some 24%Z;
     price := Some 6999.0%Q;
     description := Some "Pure sine wave inverter"; in_stock := true |};
  {| name := "Luminous RC 18000"; brand := "Luminous";
     type := "inverter-battery";
     capacity_ah := Some 150.0%Q; warranty_months := Some 36%Z;
     price := Some 13499.0%Q;
     description := Some "Tubular inverter battery"; in_stock := true |}
].

(** Requests of the further examples. *)
Definition negative_price_body : body :=
  {[ "name" := JStr "Exide Star 1050"; "brand" := JStr "Exide";
     "type" := JStr "inverter"; "price" := JFloat (-1)%Q ]}.

Definition tagged_body : body :=
  <["_id" := JStr "0"]> (<["stock" := JInt 3]> inverter_body).

Definition free_text_body : body :=
  {[ "name" := JStr "Asha"; "phone" := JStr "9876543210";
     "brand" := JStr "Okaya"; "product_type" := JStr "solar panel" ]}.

Definition no_city_body : body :=
  {[ "name" := JStr "Asha"; "phone" := JStr "9876543210"; "city" := JNull ]}.

Definition email_body : body :=
  {[ "name" := JStr "Asha"; "phone" := JStr "9876543210";
     "preferred_contact" := JStr "email" ]}.

Definition negative_warranty_body : body :=
  {[ "name" := JStr "Exide Star 1050"; "brand" := JStr "Exide";
     "type" := JStr "inverter"; "warranty_months" := JInt (-3) ]}.

Definition city_body : body :=
  {[ "name" := JStr "Asha"; "phone" := JStr "9876543210";
     "city" := JStr "Una" ]}.

Definition callback : Inquiry :=
  {| inq_name := "Asha"; phone := "9876543210"; message := None;
     product_type := None; inq_brand := None;
     preferred_contact := "whatsapp";
     city := Some "Veraval, Gir Somnath" |}.

Definition callback_without_city : Inquiry :=
  {| inq_name := "Asha"; phone := "9876543210"; message := None;
     product_type := None; inq_brand := None;
     preferred_contact := "whatsapp"; city := None |}.

Definition callback_from_una : Inquiry :=
  {| inq_name := "Asha"; phone := "9876543210"; message := None;
     product_type := None; inq_brand := None;
     preferred_contact := "whatsapp"; city := Some "Una" |}.

(** A morning of the service: startup, two creation requests of which one
    is refused, an inquiry, a listing and the diagnostics. *)
Definition morning : list request :=
  [ Startup; AddProduct inverter_body; AddProduct duracell_body;
    CreateInquiry callback_body;
    ListProducts (Some "Exide") None (Some "x.lore") None; Diagnose ∅ ].

(** ** Validation *)

Section ValidationFacts.
Context {C : Coercions}.

Lemma required_literal_allowed allowed f b s :
  required_literal allowed f b = Some s ->
  b !! f = Some (JStr s) /\ s ∈ allowed.
Proof.
  unfold required_literal.
  destruct (b !! f) as [[]|]; try discriminate.
  case_bool_decide; [|discriminate].
  intros [= <-]. auto.
Qed.

Lemma required_str_value f b s :
  required_str f b = Some s <-> b !! f = Some (JStr s).
Proof.
  unfold required_str. destruct (b !! f) as [[]|]; split; congruence.
Qed.

(** An accepted body determines the three required fields of the model. *)
Lemma validate_product_accepts b p :
  validate_product b = inr p ->
  required_str "name" b = Some (name p)
  /\ required_literal brand_literals "brand" b = Some (brand p)
  /\ required_literal type_literals "type" b = Some (type p).
Proof.
  unfold validate_product.
  destruct (required_str "name" b), (required_literal brand_literals "brand" b),
    (required_literal type_literals "type" b),
    (optional_float_ge0 "capacity_ah" b),
    (optional_int_ge0 "warranty_months" b), (optional_float_ge0 "price" b),
    (optional_str None "description" b), (bool_with_default true "in_stock" b);
    simpl; try discriminate.
  intros [= <-]. auto.
Qed.

(** A [name] in error is reported, whatever the other fields hold. *)
Lemma validate_product_name_error b :
  required_str "name" b = None ->
  exists fields, validate_product b = inl fields /\ "name" ∈ fields.
Proof.
  intros E. unfold validate_product. rewrite E. simpl.
  eexists. split; [reflexivity|]. apply list_elem_of_here.
Qed.

(** A [brand] in error is reported, whatever the other fields hold. *)
Lemma validate_product_brand_error b :
  required_literal brand_literals "brand" b = None ->
  exists fields, validate_product b = inl fields /\ "brand" ∈ fields.
Proof.
  intros E. unfold validate_product. rewrite E.
  destruct (required_str "name" b); simpl;
    (eexists; split; [reflexivity|]); set_solver.
Qed.

End ValidationFacts.

Lemma literal_nonempty (allowed : list string) s :
  s ∈ allowed -> "" ∉ allowed -> truthy (Some s) = Some s.
Proof.
  intros Hin Hno. destruct s; [contradiction|reflexivity].
Qed.

Lemma brand_truthy s : s ∈ brand_literals -> truthy (Some s) = Some s.
Proof.
  intros H. apply (literal_nonempty brand_literals); [done|].
  apply (bool_decide_unpack _). reflexivity.
Qed.

Lemma type_truthy s : s ∈ type_literals -> truthy (Some s) = Some s.
Proof.
  intros H. apply (literal_nonempty type_literals); [done|].
  apply (bool_decide_unpack _). reflexivity.
Qed.

(** ** The store: selection of documents *)

Lemma document_matches_true f d :
  document_matches f d = Some true <->
  forall k c, f !! k = Some c -> condition_holds c (d !! k) = Some true.
Proof.
  unfold document_matches. split.
  - case_bool_decide; [|discriminate].
    intros [= E]. apply bool_decide_eq_true_1 in E. exact E.
  - intros H. rewrite bool_decide_eq_true_2.
    + f_equal. apply bool_decide_eq_true_2. exact H.
    + intros k c Hk. rewrite (H k c Hk). eauto.
Qed.

Lemma document_matches_decided f d :
  is_Some (document_matches f d) <->
  forall k c, f !! k = Some c -> is_Some (condition_holds c (d !! k)).
Proof.
  unfold document_matches. split.
  - case_bool_decide as E; [intros _; exact E|].
    intros [? ?]; discriminate.
  - intros H. rewrite bool_decide_eq_true_2 by exact H. eauto.
Qed.

(** The empty filter matches every document. *)
Lemma document_matches_empty d : document_matches ∅ d = Some true.
Proof.
  apply document_matches_true. intros k c Hk.
  rewrite lookup_empty in Hk. discriminate.
Qed.

Lemma select_empty_filter docs : select ∅ docs = Some docs.
Proof.
  induction docs as [|d ds IH]; simpl; [reflexivity|].
  rewrite document_matches_empty, IH. reflexivity.
Qed.

Lemma select_decided f docs :
  Forall (fun d => is_Some (document_matches f d)) docs ->
  is_Some (select f docs).
Proof.
  induction 1 as [|d ds [b Hb] _ [r Hr]]; simpl; [eauto|].
  rewrite Hb, Hr. eauto.
Qed.

(** What a selection holds: the documents that match, no others. *)
Lemma select_elem_of f docs r d :
  select f docs = Some r ->
  d ∈ r <-> d ∈ docs /\ document_matches f d = Some true.
Proof.
  revert r. induction docs as [|x xs IH]; simpl; intros r.
  - intros [= <-]. split; [intros H; inversion H|intros [H _]; inversion H].
  - destruct (document_matches f x) as [b|] eqn:Hx; [|discriminate].
    destruct (select f xs) as [r'|]; [|discriminate].
    intros [= <-]. specialize (IH r' eq_refl).
    destruct b; rewrite ?elem_of_cons, IH; split.
    + intros [->|[? ?]]; auto.
    + intros [[->|?] ?]; auto.
    + intros [? ?]; auto.
    + intros [[->|?] ?]; [congruence|auto].
Qed.

Lemma select_length f docs r :
  select f docs = Some r -> length r <= length docs.
Proof.
  revert r. induction docs as [|x xs IH]; simpl; intros r.
  - intros [= <-]. reflexivity.
  - destruct (document_matches f x) as [b|]; [|discriminate].
    destruct (select f xs) as [r'|]; [|discriminate].
    intros [= <-]. specialize (IH r' eq_refl).
    destruct b; simpl; lia.
Qed.

Lemma select_app f xs ys rx ry :
  select f xs = Some rx -> select f ys = Some ry ->
  select f (xs ++ ys) = Some (rx ++ ry).
Proof.
  revert rx. induction xs as [|x xs IH]; simpl; intros rx.
  - intros [= <-]. auto.
  - destruct (document_matches f x) as [b|]; [|discriminate].
    destruct (select f xs) as [r'|]; [|discriminate].
    intros [= <-] Hy. rewrite (IH r' eq_refl Hy).
    destruct b; reflexivity.
Qed.

(** ** The store: running the operations *)

Lemma collection_stored_eq name doc d :
  collection name (stored name doc d)
  = collection name d ++ [<["_id" := VObjectId (next_id d)]> doc].
Proof. unfold collection at 1, stored. simpl. rewrite lookup_insert_eq. reflexivity. Qed.

Lemma collection_stored_ne name name' doc d :
  name <> name' ->
  collection name' (stored name doc d) = collection name' d.
Proof.
  intros Hne. unfold collection, stored. simpl.
  rewrite lookup_insert_ne by exact Hne. reflexivity.
Qed.

Lemma create_document_reachable {A} `{ModelDump A} name (data : A) d :
  reachable d -> model_dump data !! "_id" = None ->
  create_document name data (Some d)
  = (Return (id_text (next_id d)), Some (stored name (model_dump data) d)).
Proof.
  unfold reachable. intros Hr Hid.
  unfold create_document, bind, on_db, insert_one, operation, ret, stored.
  rewrite Hr, Hid. reflexivity.
Qed.

(** A positive limit cuts the result after that many documents. *)
Lemma cursor_limit_pos n docs :
  (0 < n)%Z -> cursor_limit n docs = take (Z.to_nat n) docs.
Proof.
  intros Hn. unfold cursor_limit.
  destruct (n =? 0)%Z eqn:E; [apply Z.eqb_eq in E; lia|].
  f_equal. lia.
Qed.

(** A limit that covers the documents leaves them all. *)
Lemma cursor_limit_all n docs :
  (Z.of_nat (length docs) <= n)%Z -> cursor_limit n docs = docs.
Proof.
  intros Hn. unfold cursor_limit.
  destruct (n =? 0)%Z; [reflexivity|]. apply take_ge. lia.
Qed.

Lemma cursor_limit_nil n : cursor_limit n [] = [].
Proof. unfold cursor_limit. destruct (n =? 0)%Z; [reflexivity|apply take_nil]. Qed.


Lemma get_documents_reachable name f limit d r :
  reachable d -> select f (collection name d) = Some r ->
  get_documents name f limit (Some d)
  = (Return (cursor_limit limit r), Some d).
Proof.
  unfold reachable. intros Hr Hs.
  unfold get_documents, on_db, find, operation.
  rewrite Hr, Hs. reflexivity.
Qed.

(** However the store fares, a listing never exceeds a positive limit. *)
Lemma get_documents_length name f limit db r db' :
  (0 < limit)%Z ->
  get_documents name f limit db = (Return r, db') ->
  length r <= Z.to_nat limit.
Proof.
  intros Hl. unfold get_documents, on_db, find, operation.
  destruct db as [d|]; [|discriminate].
  destruct (outage d) as [[|k]|]; simpl; try discriminate;
    match goal with |- context [select ?f ?c] => destruct (select f c) end;
    intros [= <- _]; rewrite (cursor_limit_pos _ _ Hl), length_take; lia.
Qed.

Lemma product_dump_no_id (p : Product) : model_dump p !! "_id" = None.
Proof. reflexivity. Qed.

Lemma inquiry_dump_no_id (i : Inquiry) : model_dump i !! "_id" = None.
Proof. reflexivity. Qed.

(** ** Listing after creation *)

(** A filter made of equalities has an answer on every document. *)
Lemma equality_filter_decided (f : query_filter) d :
  (forall k c, f !! k = Some c -> exists s, c = Equals s) ->
  is_Some (document_matches f d).
Proof.
  intros Hf. apply document_matches_decided. intros k c Hk.
  destruct (Hf k c Hk) as [s ->]. simpl.
  destruct (d !! k) as [[]|]; eauto.
Qed.

Lemma brand_type_filter_lookup br ty k c :
  brand_type_filter br ty !! k = Some c ->
  (k = "type" /\ c = Equals ty) \/ (k = "brand" /\ c = Equals br).
Proof.
  unfold brand_type_filter. intros Hk.
  apply lookup_insert_Some in Hk as [[<- <-]|[_ Hk]]; [auto|].
  apply lookup_insert_Some in Hk as [[<- <-]|[_ Hk]]; [auto|].
  rewrite lookup_empty in Hk. discriminate.
Qed.

Lemma brand_type_filter_select br ty docs :
  is_Some (select (brand_type_filter br ty) docs).
Proof.
  apply select_decided, Forall_forall. intros d _.
  apply equality_filter_decided. intros k c Hk.
  apply brand_type_filter_lookup in Hk as [[_ ->]|[_ ->]]; eauto.
Qed.

(** A stored product matches the filter on its own brand and type. *)
Lemma stored_product_matches (p : Product) oid :
  document_matches (brand_type_filter (brand p) (type p))
    (<["_id" := VObjectId oid]> (model_dump p)) = Some true.
Proof.
  apply document_matches_true. intros k c Hk.
  apply brand_type_filter_lookup in Hk as [[-> ->]|[-> ->]]; simpl.
  - change (Some (String.eqb (type p) (type p)) = Some true).
    rewrite String.eqb_refl. reflexivity.
  - change (Some (String.eqb (brand p) (brand p)) = Some true).
    rewrite String.eqb_refl. reflexivity.
Qed.

Lemma stored_reachable name doc d : reachable d -> reachable (stored name doc d).
Proof. unfold reachable, stored. simpl. auto. Qed.

(** C1. For every valid Product record, creating it through
    [POST /api/products] and then listing through [GET /api/products] with
    the brand and the type of that record and a limit above the size of the
    collection answers 201, then 200 with the created record among the
    items. *)
Theorem created_product_is_listed {C : Coercions} (b : body) (p : Product)
    (d : Database) (limit : Z) :
  validate_product b = inr p ->
  reachable d ->
  (Z.of_nat (length (collection "product" d)) < limit)%Z ->
  exists created db' listing,
    post_api_products b (Some d) = (Return (Response 201 created), db')
    /\ fst (get_api_products (Some (brand p)) (Some (type p)) None
              (Some limit) db')
       = Return (Response 200 listing)
    /\ model_dump p ∈ items listing.
Proof.
  intros Hv Hr Hlim.
  destruct (validate_product_accepts b p Hv) as (_ & Hb & Ht).
  apply required_literal_allowed in Hb as [_ Hb].
  apply required_literal_allowed in Ht as [_ Ht].
  set (new := <["_id" := VObjectId (next_id d)]> (model_dump p)).
  set (f := brand_type_filter (brand p) (type p)).
  destruct (brand_type_filter_select (brand p) (type p)
              (collection "product" d)) as [r Hsel].
  assert (Hsel' : select f (collection "product" (stored "product" (model_dump p) d))
                  = Some (r ++ [new])).
  { rewrite collection_stored_eq. apply select_app; [exact Hsel|].
    simpl. unfold f. rewrite stored_product_matches. reflexivity. }
  eexists _, _, _. split; [|split].
  - unfold post_api_products. rewrite Hv.
    unfold respond, add_product, bind, db_is_none. cbn -[create_document].
    rewrite (create_document_reachable "product" p d Hr (product_dump_no_id p)).
    reflexivity.
  - unfold get_api_products, respond, list_products, bind, db_is_none.
    cbn -[get_documents truthy].
    rewrite (brand_truthy _ Hb), (type_truthy _ Ht).
    fold (brand_type_filter (brand p) (type p)). fold f.
    rewrite (get_documents_reachable _ _ _ _ _
               (stored_reachable _ _ _ Hr) Hsel').
    reflexivity.
  - simpl. apply list_elem_of_fmap. exists new. split.
    + unfold new. rewrite delete_insert_id; [reflexivity|].
      apply product_dump_no_id.
    + rewrite cursor_limit_all.
      * apply elem_of_app. right. apply list_elem_of_here.
      * apply select_length in Hsel. rewrite length_app. simpl. lia.
Qed.

(** ** Text queries *)

Lemma compile_char_plain c : plain_char c = true -> compile_char c = Some (Lit c).
Proof.
  unfold plain_char, compile_char. intros [Ha Hm]%andb_true_iff.
  rewrite Ha. simpl. apply negb_true_iff in Hm.
  destruct (Ascii.eqb_spec c ".") as [->|_]; [discriminate Hm|].
  rewrite Hm. reflexivity.
Qed.

Lemma compile_plain q :
  forallb plain_char q = true -> compile q = Some (Lit <$> q).
Proof.
  induction q as [|c q IH]; simpl; [reflexivity|].
  intros [Hc Hq]%andb_true_iff.
  rewrite (compile_char_plain c Hc), (IH Hq). reflexivity.
Qed.



Lemma literal_atoms q : forallb is_literal (Lit <$> q) = true.
Proof. induction q as [|c q IH]; simpl; auto. Qed.

(** A query without metacharacters is searched as it is written, in any
    subject. *)
Lemma regex_search_plain q s :
  plain q = true ->
  regex_search q "i" s
  = Some (search true (Lit <$> list_ascii_of_string q) (list_ascii_of_string s)).
Proof.
  unfold plain, regex_search. intros Hq. simpl.
  rewrite (compile_plain _ Hq), literal_atoms, orb_true_r. reflexivity.
Qed.



Lemma text_condition_holds q (doc : document) :
  plain q = true -> q <> "" ->
  condition_holds (Regex q "i") (doc !! "name") = Some (contains_text q doc).
Proof.
  intros Hq Hne. unfold contains_text.
  destruct q as [|c q]; [congruence|]. simpl.
  rewrite (regex_search_plain _ "" Hq).
  destruct (doc !! "name") as [[| | | |s|]|]; try reflexivity.
  apply regex_search_plain, Hq.
Qed.

Lemma select_filter f (g : document -> bool) docs :
  (forall d, document_matches f d = Some (g d)) ->
  select f docs = Some (List.filter g docs).
Proof.
  intros H. induction docs as [|d ds IH]; simpl; [reflexivity|].
  rewrite H, IH. reflexivity.
Qed.

Lemma document_matches_bool f doc (b : bool) :
  is_Some (document_matches f doc) ->
  (b = true <->
   forall k c, f !! k = Some c -> condition_holds c (doc !! k) = Some true) ->
  document_matches f doc = Some b.
Proof.
  intros [b' Hb'] Hiff. rewrite Hb'. f_equal.
  destruct b'.
  - symmetry. apply Hiff. apply document_matches_true. exact Hb'.
  - destruct b; [|reflexivity].
    pose proof (proj2 (document_matches_true f doc) (proj1 Hiff eq_refl)).
    congruence.
Qed.

Lemma equals_holds s (doc : document) k o :
  truthy o = Some s ->
  condition_holds (Equals s) (doc !! k) = Some (field_is k o doc).
Proof.
  intros Ho. unfold field_is. rewrite Ho. simpl.
  destruct (doc !! k) as [[]|]; reflexivity.
Qed.

(** The filter [list_products] builds when no text query is given. *)
Lemma equality_filters_match (brand type : option string) doc :
  document_matches
    (match truthy type with
     | Some t =>
         <["type" := Equals t]>
           (match truthy brand with
            | Some b => <["brand" := Equals b]> ∅
            | None => ∅
            end)
     | None =>
         match truthy brand with
         | Some b => <["brand" := Equals b]> ∅
         | None => ∅
         end
     end) doc
  = Some (in_scope brand type doc).
Proof.
  unfold in_scope.
  destruct (truthy brand) as [b|] eqn:Hb, (truthy type) as [t|] eqn:Ht;
    (apply document_matches_bool;
     [ apply equality_filter_decided; intros k c Hk;
       repeat (apply lookup_insert_Some in Hk as [[_ <-]|[_ Hk]]; [eauto|]);
       rewrite lookup_empty in Hk; discriminate
     | ]).
  - rewrite andb_true_iff. split.
    + intros [H1 H2] k c Hk.
      apply lookup_insert_Some in Hk as [[<- <-]|[_ Hk]];
        [rewrite (equals_holds t doc "type" type Ht); congruence|].
      apply lookup_insert_Some in Hk as [[<- <-]|[_ Hk]];
        [rewrite (equals_holds b doc "brand" brand Hb); congruence|].
      rewrite lookup_empty in Hk. discriminate.
    + intros H. split.
      * specialize (H "brand" (Equals b)).
        rewrite lookup_insert_ne, lookup_insert_eq in H by discriminate.
        specialize (H eq_refl).
        rewrite (equals_holds b doc "brand" brand Hb) in H. congruence.
      * specialize (H "type" (Equals t)).
        rewrite lookup_insert_eq in H. specialize (H eq_refl).
        rewrite (equals_holds t doc "type" type Ht) in H. congruence.
  - assert (Ht' : field_is "type" type doc = true)
      by (unfold field_is; rewrite Ht; reflexivity).
    rewrite Ht', andb_true_r. split.
    + intros H1 k c Hk.
      apply lookup_insert_Some in Hk as [[<- <-]|[_ Hk]];
        [rewrite (equals_holds b doc "brand" brand Hb); congruence|].
      rewrite lookup_empty in Hk. discriminate.
    + intros H. specialize (H "brand" (Equals b)).
      rewrite lookup_insert_eq in H. specialize (H eq_refl).
      rewrite (equals_holds b doc "brand" brand Hb) in H. congruence.
  - assert (Hb' : field_is "brand" brand doc = true)
      by (unfold field_is; rewrite Hb; reflexivity).
    rewrite Hb', andb_true_l. split.
    + intros H1 k c Hk.
      apply lookup_insert_Some in Hk as [[<- <-]|[_ Hk]];
        [rewrite (equals_holds t doc "type" type Ht); congruence|].
      rewrite lookup_empty in Hk. discriminate.
    + intros H. specialize (H "type" (Equals t)).
      rewrite lookup_insert_eq in H. specialize (H eq_refl).
      rewrite (equals_holds t doc "type" type Ht) in H. congruence.
  - assert (Hb' : field_is "brand" brand doc = true)
      by (unfold field_is; rewrite Hb; reflexivity).
    assert (Ht' : field_is "type" type doc = true)
      by (unfold field_is; rewrite Ht; reflexivity).
    rewrite Hb', Ht'. split; [|reflexivity].
    intros _ k c Hk. rewrite lookup_empty in Hk. discriminate.
Qed.

Lemma document_matches_insert (f : query_filter) k c doc (x y : bool) :
  f !! k = None ->
  condition_holds c (doc !! k) = Some x ->
  document_matches f doc = Some y ->
  document_matches (<[k := c]> f) doc = Some (x && y).
Proof.
  intros Hk Hx Hy. apply document_matches_bool.
  - apply document_matches_decided. intros k' c' Hk'.
    apply lookup_insert_Some in Hk' as [[<- <-]|[_ Hk']]; [rewrite Hx; eauto|].
    exact (proj1 (document_matches_decided f doc) (ex_intro _ y Hy) k' c' Hk').
  - rewrite andb_true_iff. split.
    + intros [-> ->] k' c' Hk'.
      apply lookup_insert_Some in Hk' as [[<- <-]|[_ Hk']]; [exact Hx|].
      exact (proj1 (document_matches_true f doc) Hy k' c' Hk').
    + intros H. split.
      * specialize (H k c (lookup_insert_eq f k c)). congruence.
      * assert (Ht : document_matches f doc = Some true).
        { apply document_matches_true. intros k' c' Hk'. apply H.
          rewrite lookup_insert_ne; [exact Hk'|]. congruence. }
        congruence.
Qed.

(** The filter of a listing on a query without metacharacters. *)
Lemma listing_filter_matches (brand type q : option string) doc :
  plain (default "" q) = true ->
  document_matches (listing_filter brand type q) doc
  = Some (in_scope brand type doc && contains_text (default "" q) doc).
Proof.
  intros Hq. unfold listing_filter. cbv zeta.
  pose proof (equality_filters_match brand type doc) as He.
  destruct (truthy q) as [s|] eqn:Hs.
  - assert (q = Some s /\ s <> "") as [-> Hne].
    { destruct q as [[|c q]|]; try discriminate Hs.
      injection Hs as <-. split; [reflexivity|discriminate]. }
    simpl in Hq. simpl default. rewrite andb_comm.
    apply document_matches_insert; [|apply text_condition_holds; assumption|exact He].
    destruct (truthy type), (truthy brand); reflexivity.
  - assert (default "" q = "") as ->.
    { destruct q as [[|c q]|]; try reflexivity. discriminate Hs. }
    rewrite andb_true_r. exact He.
Qed.

(** A connected handle whose store answers the call. *)
Lemma get_documents_answering name f limit d r :
  outage d <> Some 0 -> select f (collection name d) = Some r ->
  get_documents name f limit (Some d)
  = (Return (cursor_limit limit r), Some (spend d)).
Proof.
  intros Ho Hs. unfold get_documents, on_db, find, operation, spend.
  destruct (outage d) as [[|k]|]; [congruence| |];
    unfold collection in *; cbn [collections]; rewrite Hs; reflexivity.
Qed.

(** The listing on a store that answers, for a query without
    metacharacters or no query at all. *)
Lemma list_products_answering brand type q limit d :
  plain (default "" q) = true -> outage d <> Some 0 ->
  list_products brand type q limit (Some d)
  = (Return
       {| items :=
            delete "_id"
              <$> cursor_limit (default 50%Z limit)
                    (List.filter
                       (fun doc => in_scope brand type doc
                                   && contains_text (default "" q) doc)
                       (collection "product" d));
          total :=
            length
              (delete "_id"
                 <$> cursor_limit (default 50%Z limit)
                       (List.filter
                          (fun doc => in_scope brand type doc
                                      && contains_text (default "" q) doc)
                          (collection "product" d))) |},
     Some (spend d)).
Proof.
  intros Hq Ho.
  change (list_products brand type q limit (Some d))
    with (bind (get_documents "product" (listing_filter brand type q)
                  (default 50%Z limit))
            (fun items =>
               ret {| items := delete "_id" <$> items;
                      total := length (delete "_id" <$> items) |})
            (Some d)).
  unfold bind.
  rewrite (get_documents_answering _ _ _ _ _ Ho
             (select_filter _ _ _
                (fun doc => listing_filter_matches brand type q doc Hq))).
  reflexivity.
Qed.


(** A plain query is searched in names outside ASCII too. *)
Example accented_name_is_searched :
  answered (fun l => names (items l))
    (get_api_products None None (Some "CAF") None (Some accented_store))
  = Some (200, [Some (VStr "Exide Café 900")])
  /\ answered (fun l => names (items l))
       (get_api_products None None (Some "xp") (Some 1%Z) (Some accented_store))
     = Some (200, [Some (VStr "Exide Xplore")]).
Proof. split; vm_compute; reflexivity. Qed.


(** ** Rejected and accepted bodies *)

Lemma required_literal_outside (allowed : list string) f b :
  (forall s, b !! f = Some (JStr s) -> s ∉ allowed) ->
  required_literal allowed f b = None.
Proof.
  intros H. unfold required_literal.
  destruct (b !! f) as [[| | | |s| |]|]; try reflexivity.
  case_bool_decide as Hs; [|reflexivity].
  exfalso. exact (H s eq_refl Hs).
Qed.

(** C3. A creation request whose [brand] is not one of Amaron, Exide and
    Luminous is answered 422 with [brand] among the fields in error, whatever
    the state of the store handle, and the store is left as it was. *)
Theorem unknown_brand_is_rejected {C : Coercions} (b : body)
    (db : option Database) :
  (forall s, b !! "brand" = Some (JStr s) -> s ∉ brand_literals) ->
  exists r fields,
    post_api_products b db = (Return r, db)
    /\ r = RequestValidationError fields
    /\ status r = 422
    /\ "brand" ∈ fields.
Proof.
  intros H.
  destruct (validate_product_brand_error b
              (required_literal_outside brand_literals "brand" b H))
    as (fields & Hv & Hin).
  exists (RequestValidationError fields), fields.
  unfold post_api_products. rewrite Hv. auto.
Qed.

(** C4, as stated, fails: a body whose [name] is the empty string passes
    validation, is answered 201, and the record stored last has the empty
    name. *)
Lemma empty_name_is_accepted :
  validate_product (C := native) nameless_body = inr nameless
  /\ name nameless = ""
  /\ answered created_message
       (post_api_products (C := native) nameless_body (Some seeded_store))
     = Some (201, "Product added")
  /\ names (products_of
              (snd (post_api_products (C := native) nameless_body
                      (Some seeded_store))))
     = names (products_of (Some seeded_store)) ++ [Some (VStr "")].
Proof.
  split; [vm_compute; reflexivity|].
  split; [reflexivity|].
  split; vm_compute; reflexivity.
Qed.

(** C4, as amended.  Every Product record accepted by schema validation has
    the text given as [name] in the body, which may be empty; a creation
    request whose [name] is absent or is not text fails validation with
    [name] among the fields in error and the store is left as it was. *)
Theorem product_name_is_required_text {C : Coercions} (b : body) :
  (forall p, validate_product b = inr p -> b !! "name" = Some (JStr (name p)))
  /\ ((forall s, b !! "name" <> Some (JStr s)) ->
      forall db, exists fields,
        post_api_products b db = (Return (RequestValidationError fields), db)
        /\ "name" ∈ fields).
Proof.
  split.
  - intros p Hv. apply validate_product_accepts in Hv as (Hn & _).
    apply required_str_value. exact Hn.
  - intros H db.
    assert (Hn : required_str "name" b = None).
    { destruct (required_str "name" b) as [s|] eqn:E; [|reflexivity].
      apply required_str_value in E. destruct (H s E). }
    destruct (validate_product_name_error b Hn) as (fields & Hv & Hin).
    exists fields. unfold post_api_products. rewrite Hv. auto.
Qed.

(** ** The handle that was never connected *)

(** C8. With [db] equal to [None], product listing, product creation and
    inquiry creation raise [HTTPException(500)], their routes answer with
    status 500, and the handle is still [None] afterwards. *)
Theorem absent_handle_is_a_server_error {C : Coercions}
    (brand type q : option string) (limit : option Z)
    (product : Product) (inquiry : Inquiry) (b : body) :
  list_products brand type q limit None = (Raise not_connected, None)
  /\ add_product product None = (Raise not_connected, None)
  /\ create_inquiry inquiry None = (Raise not_connected, None)
  /\ get_api_products brand type q limit None
     = (Return (ErrorResponse 500 "Database not connected"), None)
  /\ post_api_products b None
     = match validate_product b with
       | inl fields => (Return (RequestValidationError fields), None)
       | inr _ => (Return (ErrorResponse 500 "Database not connected"), None)
       end
  /\ post_api_inquiries b None
     = match validate_inquiry b with
       | inl fields => (Return (RequestValidationError fields), None)
       | inr _ => (Return (ErrorResponse 500 "Database not connected"), None)
       end.
Proof.
  repeat split; try reflexivity.
  - unfold post_api_products. destruct (validate_product b); reflexivity.
  - unfold post_api_inquiries. destruct (validate_inquiry b); reflexivity.
Qed.

(** ** Empty parameters *)

(** C10. In a product listing an empty string for [brand], [type] or [q]
    behaves as the parameter left out. *)
Theorem empty_parameter_is_no_filter (brand type q : option string)
    (limit : option Z) (db : option Database) :
  get_api_products (Some "") type q limit db
  = get_api_products None type q limit db
  /\ get_api_products brand (Some "") q limit db
     = get_api_products brand None q limit db
  /\ get_api_products brand type (Some "") limit db
     = get_api_products brand type None limit db.
Proof. repeat split; reflexivity. Qed.

(** ** Inquiries *)

Lemma validate_minimal_inquiry (b : body) (n ph : string) :
  b !! "name" = Some (JStr n) ->
  b !! "phone" = Some (JStr ph) ->
  (forall k, k <> "name" -> k <> "phone" -> b !! k = None) ->
  validate_inquiry b
  = inr {| inq_name := n; phone := ph; message := None; product_type := None;
           inq_brand := None; preferred_contact := "whatsapp";
           city := Some "Veraval, Gir Somnath" |}.
Proof.
  intros Hn Hp Ho.
  unfold validate_inquiry, required_str, optional_str, literal_with_default.
  rewrite Hn, Hp.
  rewrite (Ho "message"), (Ho "product_type"), (Ho "brand"),
    (Ho "preferred_contact"), (Ho "city") by discriminate.
  reflexivity.
Qed.

(** C7. An inquiry body that carries a [name] and a [phone] and nothing
    else is answered 201 on a reachable store, and the record stored for it
    has [preferred_contact] equal to "whatsapp" and [city] equal to
    "Veraval, Gir Somnath". *)
Theorem minimal_inquiry_takes_defaults (b : body) (n ph : string)
    (d : Database) :
  b !! "name" = Some (JStr n) ->
  b !! "phone" = Some (JStr ph) ->
  (forall k, k <> "name" -> k <> "phone" -> b !! k = None) ->
  reachable d ->
  exists created d' doc,
    post_api_inquiries b (Some d) = (Return (Response 201 created), Some d')
    /\ collection "inquiry" d' = collection "inquiry" d ++ [doc]
    /\ doc !! "name" = Some (VStr n)
    /\ doc !! "phone" = Some (VStr ph)
    /\ doc !! "preferred_contact" = Some (VStr "whatsapp")
    /\ doc !! "city" = Some (VStr "Veraval, Gir Somnath").
Proof.
  intros Hn Hp Ho Hr.
  set (i := {| inq_name := n; phone := ph; message := None;
               product_type := None; inq_brand := None;
               preferred_contact := "whatsapp";
               city := Some "Veraval, Gir Somnath" |}).
  exists {| id := id_text (next_id d);
            created_message := "Thanks! We will contact you shortly." |},
    (stored "inquiry" (model_dump i) d),
    (<["_id" := VObjectId (next_id d)]> (model_dump i)).
  split; [|split; [apply collection_stored_eq|repeat split; reflexivity]].
  unfold post_api_inquiries.
  rewrite (validate_minimal_inquiry b n ph Hn Hp Ho). fold i.
  unfold respond, create_inquiry, bind, db_is_none. cbn -[create_document].
  rewrite (create_document_reachable "inquiry" i d Hr (inquiry_dump_no_id i)).
  reflexivity.
Qed.

(** ** The limit of a listing *)

Lemma list_products_total brand type q limit db listing db' :
  list_products brand type q limit db = (Return listing, db') ->
  total listing = length (items listing)
  /\ ((0 < default 50%Z limit)%Z ->
      length (items listing) <= Z.to_nat (default 50%Z limit)).
Proof.
  unfold list_products, bind, db_is_none, raise, ret.
  destruct db as [d|]; [|discriminate]. cbv iota beta.
  match goal with
  | |- context [get_documents ?n ?f ?l ?s] =>
      destruct (get_documents n f l s) as [[r| |] db''] eqn:Hget
  end; try discriminate.
  intros [= <- _]. simpl. rewrite length_fmap.
  split; [reflexivity|]. intros Hl.
  exact (get_documents_length _ _ _ _ _ _ Hl Hget).
Qed.

(** C6, as stated, fails at zero: the limit goes to the cursor of the
    store unchecked, where zero is no limit.  On the seeded catalogue a
    listing with [limit=0] is answered 200 with all six products. *)
Lemma zero_limit_is_no_limit :
  answered (fun l => length (items l))
    (get_api_products None None None (Some 0%Z) (Some seeded_store))
  = Some (200, 6)
  /\ ~ (Z.of_nat 6 <= 0)%Z.
Proof.
  split; [vm_compute; reflexivity|]. lia.
Qed.

(** Below zero the cursor counts the absolute value of the limit. *)
Example negative_limit_counts_as_absolute :
  answered (fun l => length (items l))
    (get_api_products None None None (Some (-1)%Z) (Some seeded_store))
  = Some (200, 1)
  /\ answered (fun l => length (items l))
       (get_api_products None None None (Some (-3)%Z) (Some seeded_store))
     = Some (200, 3).
Proof. split; vm_compute; reflexivity. Qed.

(** C6, as amended.  A listing called without a limit is the listing with
    limit 50.  A listing called with a positive limit [n] returns at most
    [n] records, and [total] is their number: whatever documents the store
    selects, its cursor yields at most [n] of them.  A store that answers
    returns the listing whenever the text query is absent, empty or free of
    metacharacters. *)
Theorem limit_bounds_listing (brand type q : option string)
    (db : option Database) :
  get_api_products brand type q None db
  = get_api_products brand type q (Some 50%Z) db
  /\ (forall n listing db',
        (0 < n)%Z ->
        get_api_products brand type q (Some n) db
        = (Return (Response 200 listing), db') ->
        (Z.of_nat (length (items listing)) <= n)%Z
        /\ total listing = length (items listing))
  /\ (forall n selected,
        (0 < n)%Z -> (Z.of_nat (length (cursor_limit n selected)) <= n)%Z)
  /\ (forall n d,
        db = Some d -> outage d <> Some 0 ->
        plain (default "" q) = true ->
        exists listing,
          get_api_products brand type q (Some n) db
          = (Return (Response 200 listing), Some (spend d))).
Proof.
  split; [reflexivity|]. split; [|split].
  - intros n listing db' Hn. unfold get_api_products, respond.
    destruct (list_products brand type q (Some n) db) as [[l|[]|] db'']
      eqn:Hl; try discriminate.
    intros [= <- _].
    apply list_products_total in Hl as [Ht Hlen]. simpl in Hlen.
    specialize (Hlen Hn). split; [lia|exact Ht].
  - intros n selected Hn. rewrite (cursor_limit_pos _ _ Hn), length_take. lia.
  - intros n d -> Ho Hq. eexists. unfold get_api_products, respond.
    rewrite (list_products_answering brand type q (Some n) d Hq Ho).
    reflexivity.
Qed.

(** ** Startup seeding *)

Lemma create_document_settled name (s : document) db :
  s !! "_id" = None -> settled (create_document name s db).
Proof.
  intros Hs. unfold create_document, bind, on_db, insert_one, operation, ret.
  destruct db as [d|]; [|exact I].
  unfold model_dump, dict_dump.
  destruct (outage d) as [[|k]|]; rewrite ?Hs; exact I.
Qed.

Lemma for_each_settled (xs : list document) (body : document -> App unit) :
  (forall x db, x ∈ xs -> settled (body x db)) ->
  forall db, settled (for_each xs body db).
Proof.
  induction xs as [|x xs IH]; intros Hb db; simpl; [exact I|].
  unfold bind. pose proof (Hb x db (list_elem_of_here _ _)) as Hx.
  destruct (body x db) as [[[]|e|] db'].
  - apply IH. intros y db'' Hy. apply Hb. apply list_elem_of_further, Hy.
  - exact I.
  - exact Hx.
Qed.

Lemma samples_have_no_id : Forall (fun s : document => s !! "_id" = None) samples.
Proof. repeat constructor. Qed.

Lemma seeding_loop_settled db :
  settled (for_each samples (fun s => create_document "product" s ;;; ret tt) db).
Proof.
  apply for_each_settled. intros x db' Hx.
  pose proof (proj1 (Forall_forall _ _) samples_have_no_id x Hx) as Hid.
  pose proof (create_document_settled "product" x db' Hid) as Hc.
  unfold bind. destruct (create_document "product" x db') as [[| |] ?];
    [exact I|exact I|exact Hc].
Qed.

Lemma spend_keeps d :
  collections (spend d) = collections d /\ next_id (spend d) = next_id d.
Proof. unfold spend. destruct (outage d) as [[|k]|]; auto. Qed.

Lemma count_documents_all name d :
  count_documents name ∅ d
  = match outage d with
    | Some O => (Raise connection_lost, d)
    | _ => (Return (length (collection name d)), spend d)
    end.
Proof.
  unfold count_documents, operation, spend.
  destruct (outage d) as [[|k]|]; try reflexivity;
    unfold collection; cbn [collections]; fold (collection name d);
    rewrite select_empty_filter; reflexivity.
Qed.

(** The hook leaves the catalogue and the identifiers of a store that
    already holds a product as they were. *)
Lemma seed_products_populated d :
  collection "product" d <> [] ->
  exists d',
    seed_products (Some d) = (Return tt, Some d')
    /\ collections d' = collections d /\ next_id d' = next_id d.
Proof.
  intros Hne.
  unfold seed_products, bind, db_is_none, try_except, on_db, ret.
  cbv iota beta. rewrite count_documents_all.
  destruct (outage d) as [[|k]|] eqn:Ho.
  - exists d. auto.
  - exists (spend d). split; [|apply spend_keeps].
    destruct (collection "product" d); [congruence|reflexivity].
  - exists (spend d). split; [|apply spend_keeps].
    destruct (collection "product" d); [congruence|reflexivity].
Qed.

(** An [except Exception: pass] around a run that stays in the model. *)
Lemma try_except_pass (body : App unit) db :
  settled (body db) ->
  exists db', try_except body (fun _ => ret tt) db = (Return tt, db').
Proof.
  unfold try_except, settled, ret.
  destruct (body db) as [[[]|e|] db']; simpl; [eauto|eauto|contradiction].
Qed.

Lemma seeding_settled d : settled (seeding (Some d)).
Proof.
  unfold seeding, bind, on_db. rewrite count_documents_all.
  destruct (outage d) as [[|k]|]; [exact I| |];
    (destruct (length (collection "product" d) =? 0)%nat;
     [apply seeding_loop_settled|exact I]).
Qed.

(** C5. The startup seed step always returns: no exception leaves it,
    whether the handle is absent, the store is unreachable or the connection
    is lost while the samples are written.  On a store whose product
    collection holds a record it writes nothing. *)
Theorem seeding_is_best_effort (db : option Database) :
  (exists db', seed_products db = (Return tt, db'))
  /\ (forall d, db = Some d -> outage d = Some 0 ->
        seed_products db = (Return tt, db))
  /\ (forall d, db = Some d -> collection "product" d <> [] ->
        exists d',
          seed_products db = (Return tt, Some d')
          /\ collections d' = collections d /\ next_id d' = next_id d).
Proof.
  split; [|split].
  - destruct db as [d|]; [|eexists; reflexivity].
    exact (try_except_pass seeding (Some d) (seeding_settled d)).
  - intros d -> Ho.
    unfold seed_products, bind, db_is_none, try_except, on_db, ret.
    cbv iota beta. rewrite count_documents_all, Ho. reflexivity.
  - intros d -> Hne. apply seed_products_populated, Hne.
Qed.

(** Startup on an empty store writes the six samples, a second startup
    adds nothing, and a connection lost after two insertions leaves the hook
    returning with the two samples written. *)
Example seeding_runs :
  fst (seed_products (Some fresh_store)) = Return tt
  /\ names (products_of seeded)
     = [Some (VStr "Amaron Pro Rider"); Some (VStr "Exide Xplore");
        Some (VStr "Amaron Flo 55B24L"); Some (VStr "Exide Mileage 35L");
        Some (VStr "Luminous Zelio+ 1100"); Some (VStr "Luminous RC 18000")]
  /\ names (products_of (snd (seed_products seeded)))
     = names (products_of seeded)
  /\ fst (seed_products (Some failing_store)) = Return tt
  /\ names (products_of (snd (seed_products (Some failing_store))))
     = [Some (VStr "Amaron Pro Rider"); Some (VStr "Exide Xplore")].
Proof. repeat split; vm_compute; reflexivity. Qed.

(** ** Diagnostics *)

(** The outer [try] of [test_database] never reaches its handler. *)
Lemma probe_returns response db :
  exists r db', probe response db = (Return r, db').
Proof.
  unfold probe, try_except, bind, on_db, list_collection_names, operation, ret.
  destruct db as [d|]; [|eauto].
  destruct (outage d) as [[|k]|]; eauto.
Qed.

(** C9. [GET /test] is answered 200 in every state of the store.  With the
    handle absent, and with a probe of the collection names that raises, the
    failure is told in the [database] entry; [backend] and the two entries
    on the environment do not depend on the store. *)
Theorem diagnostics_never_fail (env : environ) (db : option Database) :
  exists r db',
    get_test env db = (Return (Response 200 r), db')
    /\ r !! "backend" = Some (DStr "✅ Running")
    /\ r !! "database_url" = Some (env_flag env "DATABASE_URL")
    /\ r !! "database_name" = Some (env_flag env "DATABASE_NAME")
    /\ match db with
       | None =>
           r !! "database" = Some (DStr "⚠️  Available but not initialized")
           /\ r !! "connection_status" = Some (DStr "Not Connected")
           /\ r !! "collections" = Some (DList [])
       | Some d =>
           r !! "connection_status" = Some (DStr "Connected")
           /\ match outage d with
              | Some O =>
                  r !! "database"
                  = Some (DStr ("⚠️  Connected but Error: "
                                +:+ str50 connection_lost))
                  /\ r !! "collections" = Some (DList [])
              | _ =>
                  r !! "database" = Some (DStr "✅ Connected & Working")
                  /\ r !! "collections"
                     = Some (DList (take 10 (map_to_list (collections d)).*1))
              end
       end.
Proof.
  destruct db as [d|].
  - cbv beta iota zeta delta
      [get_test respond test_database bind try_except probe on_db
       list_collection_names operation ret env_flag].
    destruct (outage d) as [[|k]|]; cbv beta iota zeta;
      (eexists _, _; split; [reflexivity|]); repeat split; reflexivity.
  - eexists _, _. split; [reflexivity|]. repeat split; reflexivity.
Qed.

(** ** The properties at concrete requests *)

(** C1 on the seeded catalogue: an inverter is created and then listed. *)
Lemma created_product_is_listed_witness :
  validate_product (C := native) inverter_body = inr inverter
  /\ reachable seeded_store
  /\ (Z.of_nat (length (collection "product" seeded_store)) < 50)%Z
  /\ exists created db' listing,
       post_api_products (C := native) inverter_body (Some seeded_store)
       = (Return (Response 201 created), db')
       /\ fst (get_api_products (Some "Exide") (Some "inverter") None
                 (Some 50%Z) db')
          = Return (Response 200 listing)
       /\ model_dump inverter ∈ items listing.
Proof.
  assert (Hv : validate_product (C := native) inverter_body = inr inverter)
    by (vm_compute; reflexivity).
  assert (Hr : reachable seeded_store) by (vm_compute; reflexivity).
  assert (Hl : (Z.of_nat (length (collection "product" seeded_store)) < 50)%Z)
    by (vm_compute; reflexivity).
  split; [exact Hv|]. split; [exact Hr|]. split; [exact Hl|].
  exact (created_product_is_listed (C := native) inverter_body inverter
           seeded_store 50 Hv Hr Hl).
Defined.


(** C3 for the brand "Duracell". *)
Lemma unknown_brand_is_rejected_witness :
  (forall s, duracell_body !! "brand" = Some (JStr s) -> s ∉ brand_literals)
  /\ exists r fields,
       post_api_products (C := native) duracell_body (Some seeded_store)
       = (Return r, Some seeded_store)
       /\ r = RequestValidationError fields
       /\ status r = 422
       /\ "brand" ∈ fields.
Proof.
  assert (H : forall s, duracell_body !! "brand" = Some (JStr s) ->
                        s ∉ brand_literals).
  { intros s Hs. vm_compute in Hs. injection Hs as <-.
    apply (bool_decide_unpack _). vm_compute. exact I. }
  split; [exact H|].
  exact (unknown_brand_is_rejected (C := native) duracell_body
           (Some seeded_store) H).
Defined.

(** C4, as amended, for an accepted body and for a body without [name]. *)
Lemma product_name_is_required_text_witness :
  (validate_product (C := native) inverter_body = inr inverter
   /\ inverter_body !! "name" = Some (JStr (name inverter)))
  /\ ((forall s, unnamed_body !! "name" <> Some (JStr s))
      /\ exists fields,
           post_api_products (C := native) unnamed_body (Some seeded_store)
           = (Return (RequestValidationError fields), Some seeded_store)
           /\ "name" ∈ fields).
Proof.
  assert (Hv : validate_product (C := native) inverter_body = inr inverter)
    by (vm_compute; reflexivity).
  assert (Hu : forall s, unnamed_body !! "name" <> Some (JStr s)).
  { intros s Hs. vm_compute in Hs. discriminate Hs. }
  split.
  - split; [exact Hv|].
    exact (proj1 (product_name_is_required_text (C := native) inverter_body)
             inverter Hv).
  - split; [exact Hu|].
    exact (proj2 (product_name_is_required_text (C := native) unnamed_body)
             Hu (Some seeded_store)).
Defined.

(** C5 on an unreachable store and on the seeded catalogue. *)
Lemma seeding_is_best_effort_witness :
  (outage unreachable_store = Some 0
   /\ seed_products (Some unreachable_store) = (Return tt, Some unreachable_store))
  /\ (collection "product" seeded_store <> []
      /\ exists d',
           seed_products (Some seeded_store) = (Return tt, Some d')
           /\ collections d' = collections seeded_store
           /\ next_id d' = next_id seeded_store).
Proof.
  assert (Ho : outage unreachable_store = Some 0) by reflexivity.
  assert (Hne : collection "product" seeded_store <> []).
  { intros H. apply (f_equal length) in H. vm_compute in H. discriminate H. }
  split.
  - split; [exact Ho|].
    exact (proj1 (proj2 (seeding_is_best_effort (Some unreachable_store)))
             unreachable_store eq_refl Ho).
  - split; [exact Hne|].
    exact (proj2 (proj2 (seeding_is_best_effort (Some seeded_store)))
             seeded_store eq_refl Hne).
Defined.

(** C6, as amended, for [limit=2] on the seeded catalogue: two of the six
    products are returned. *)
Lemma limit_bounds_listing_witness :
  ((0 < 2)%Z
   /\ get_api_products None None None (Some 2%Z) (Some seeded_store)
      = (Return (Response 200 first_two), Some seeded_store)
   /\ (Z.of_nat (length (items first_two)) <= 2)%Z
   /\ total first_two = length (items first_two))
  /\ (Z.of_nat (length (cursor_limit 2 (collection "product" seeded_store)))
      <= 2)%Z
  /\ (outage seeded_store <> Some 0
      /\ plain (default "" None) = true
      /\ exists listing,
           get_api_products None None None (Some 2%Z) (Some seeded_store)
           = (Return (Response 200 listing), Some (spend seeded_store))).
Proof.
  assert (H0 : (0 < 2)%Z) by lia.
  assert (Hg : get_api_products None None None (Some 2%Z) (Some seeded_store)
               = (Return (Response 200 first_two), Some seeded_store))
    by (vm_compute; reflexivity).
  assert (Ho : outage seeded_store <> Some 0) by (vm_compute; discriminate).
  assert (Hq : plain (default "" None) = true) by reflexivity.
  pose proof (limit_bounds_listing None None None (Some seeded_store))
    as (_ & Hbound & Hcursor & Hret).
  split; [|split].
  - split; [exact H0|]. split; [exact Hg|].
    exact (Hbound 2%Z first_two (Some seeded_store) H0 Hg).
  - exact (Hcursor 2%Z (collection "product" seeded_store) H0).
  - split; [exact Ho|]. split; [exact Hq|].
    exact (Hret 2%Z seeded_store eq_refl Ho Hq).
Defined.

(** C7 for a body with a name and a phone. *)
Lemma minimal_inquiry_takes_defaults_witness :
  callback_body !! "name" = Some (JStr "Asha")
  /\ callback_body !! "phone" = Some (JStr "9876543210")
  /\ (forall k, k <> "name" -> k <> "phone" -> callback_body !! k = None)
  /\ reachable seeded_store
  /\ exists created d' doc,
       post_api_inquiries callback_body (Some seeded_store)
       = (Return (Response 201 created), Some d')
       /\ collection "inquiry" d' = collection "inquiry" seeded_store ++ [doc]
       /\ doc !! "name" = Some (VStr "Asha")
       /\ doc !! "phone" = Some (VStr "9876543210")
       /\ doc !! "preferred_contact" = Some (VStr "whatsapp")
       /\ doc !! "city" = Some (VStr "Veraval, Gir Somnath").
Proof.
  assert (Hn : callback_body !! "name" = Some (JStr "Asha")) by reflexivity.
  assert (Hp : callback_body !! "phone" = Some (JStr "9876543210"))
    by reflexivity.
  assert (Ho : forall k, k <> "name" -> k <> "phone" ->
                         callback_body !! k = None).
  { intros k H1 H2. unfold callback_body.
    rewrite lookup_insert_ne by congruence.
    apply lookup_singleton_ne. congruence. }
  assert (Hr : reachable seeded_store) by (vm_compute; reflexivity).
  split; [exact Hn|]. split; [exact Hp|]. split; [exact Ho|]. split; [exact Hr|].
  exact (minimal_inquiry_takes_defaults callback_body "Asha" "9876543210"
           seeded_store Hn Hp Ho Hr).
Defined.


(** ** Further properties: validation of products *)

Section ProductValidation.
Context {C : Coercions}.

(** An accepted body determines every field of the model. *)
Lemma validate_product_fields b p :
  validate_product b = inr p ->
  required_str "name" b = Some (name p)
  /\ required_literal brand_literals "brand" b = Some (brand p)
  /\ required_literal type_literals "type" b = Some (type p)
  /\ optional_float_ge0 "capacity_ah" b = Some (capacity_ah p)
  /\ optional_int_ge0 "warranty_months" b = Some (warranty_months p)
  /\ optional_float_ge0 "price" b = Some (price p)
  /\ optional_str None "description" b = Some (description p)
  /\ bool_with_default true "in_stock" b = Some (in_stock p).
Proof.
  unfold validate_product.
  destruct (required_str "name" b), (required_literal brand_literals "brand" b),
    (required_literal type_literals "type" b),
    (optional_float_ge0 "capacity_ah" b),
    (optional_int_ge0 "warranty_months" b), (optional_float_ge0 "price" b),
    (optional_str None "description" b), (bool_with_default true "in_stock" b);
    simpl; try discriminate.
  intros [= <-]. simpl. repeat split; reflexivity.
Qed.

(** Validation ends in the model or in the gathered fields in error. *)
Lemma validate_product_cases b :
  (product_errors b = [] /\ exists p, validate_product b = inr p)
  \/ (product_errors b <> [] /\ validate_product b = inl (product_errors b)).
Proof.
  unfold validate_product, product_errors.
  destruct (required_str "name" b), (required_literal brand_literals "brand" b),
    (required_literal type_literals "type" b),
    (optional_float_ge0 "capacity_ah" b),
    (optional_int_ge0 "warranty_months" b), (optional_float_ge0 "price" b),
    (optional_str None "description" b), (bool_with_default true "in_stock" b);
    simpl;
    first [ left; split; [reflexivity|eexists; reflexivity]
          | right; split; [discriminate|reflexivity] ].
Qed.

Lemma optional_float_ge0_bound f b q :
  optional_float_ge0 f b = Some (Some q) -> (0 <= q)%Q.
Proof.
  unfold optional_float_ge0.
  destruct (b !! f) as [j|]; [|discriminate].
  assert (H : match to_float j with
              | Some q0 => if Qle_bool 0 q0 then Some (Some q0) else None
              | None => None
              end = Some (Some q) -> (0 <= q)%Q).
  { destruct (to_float j) as [q0|]; [|discriminate].
    destruct (Qle_bool 0 q0) eqn:E; [|discriminate].
    intros [= <-]. apply Qle_bool_iff, E. }
  destruct j; try exact H. discriminate.
Qed.

Lemma optional_int_ge0_bound f b z :
  optional_int_ge0 f b = Some (Some z) -> (0 <= z)%Z.
Proof.
  unfold optional_int_ge0.
  destruct (b !! f) as [j|]; [|discriminate].
  assert (H : match to_int j with
              | Some z0 => if (0 <=? z0)%Z then Some (Some z0) else None
              | None => None
              end = Some (Some z) -> (0 <= z)%Z).
  { destruct (to_int j) as [z0|]; [|discriminate].
    destruct (0 <=? z0)%Z eqn:E; [|discriminate].
    intros [= <-]. apply Z.leb_le, E. }
  destruct j; try exact H. discriminate.
Qed.

Lemma validate_product_sound (b : body) (p : Product) :
  validate_product b = inr p -> schema_valid p.
Proof.
  intros Hv.
  destruct (validate_product_fields b p Hv)
    as (_ & Hb & Ht & Hc & Hw & Hp & _ & _).
  apply required_literal_allowed in Hb as [_ Hb].
  apply required_literal_allowed in Ht as [_ Ht].
  repeat split; [exact Hb|exact Ht| | |].
  - intros q Hq. rewrite Hq in Hc. exact (optional_float_ge0_bound _ _ _ Hc).
  - intros z Hz. rewrite Hz in Hw. exact (optional_int_ge0_bound _ _ _ Hw).
  - intros q Hq. rewrite Hq in Hp. exact (optional_float_ge0_bound _ _ _ Hp).
Qed.

(** X1. A body that validation accepts yields a product within the
    constraints of the schema: brand and type in their enumerations, and
    capacity, warranty and price not negative when present. *)
Theorem accepted_product_is_valid (b : body) (p : Product) :
  validate_product b = inr p -> schema_valid p.
Proof. exact (validate_product_sound b p). Qed.

Lemma loc_sublist {A} f (r : option A) : loc f r `sublist_of` [f].
Proof. destruct r; simpl; [apply sublist_nil_l|reflexivity]. Qed.

(** X2. When validation fails, the fields it reports are never none, and
    they are fields of the model, each once, in the order of declaration;
    the route answers 422 with them and leaves the store as it was. *)
Theorem rejection_lists_declared_fields (b : body) (fields : list string)
    (db : option Database) :
  validate_product b = inl fields ->
  fields <> []
  /\ fields `sublist_of` product_model_fields
  /\ post_api_products b db = (Return (RequestValidationError fields), db).
Proof.
  intros Hv.
  destruct (validate_product_cases b) as [[_ [p Hp]]|[Hne He]];
    [congruence|].
  assert (fields = product_errors b) as -> by congruence.
  split; [exact Hne|]. split.
  - unfold product_errors.
    change product_model_fields
      with (["name"] ++ ["brand"] ++ ["type"] ++ ["capacity_ah"]
            ++ ["warranty_months"] ++ ["price"] ++ ["description"]
            ++ ["in_stock"]).
    repeat (apply sublist_app; [apply loc_sublist|]). apply loc_sublist.
  - unfold post_api_products. rewrite Hv. reflexivity.
Qed.

Lemma product_errors_elem f b :
  f ∈ product_errors b ->
  forall db, exists fields,
    post_api_products b db = (Return (RequestValidationError fields), db)
    /\ f ∈ fields.
Proof.
  intros Hf db.
  destruct (validate_product_cases b) as [[He _]|[_ He]].
  - rewrite He in Hf. inversion Hf.
  - exists (product_errors b). unfold post_api_products. rewrite He. auto.
Qed.

(** X3. A negative capacity, warranty or price is refused: the request is
    answered 422 with the field among those in error, and nothing is
    stored. *)
Theorem negative_numbers_are_rejected (b : body) (j : json)
    (db : option Database) :
  j <> JNull ->
  (forall f q, f = "capacity_ah" \/ f = "price" ->
     b !! f = Some j -> to_float j = Some q -> (q < 0)%Q ->
     exists fields,
       post_api_products b db = (Return (RequestValidationError fields), db)
       /\ f ∈ fields)
  /\ (forall z,
        b !! "warranty_months" = Some j -> to_int j = Some z -> (z < 0)%Z ->
        exists fields,
          post_api_products b db = (Return (RequestValidationError fields), db)
          /\ "warranty_months" ∈ fields).
Proof.
  intros Hj. split.
  - intros f q Hf Hb Hq Hneg.
    assert (Hr : optional_float_ge0 f b = None).
    { unfold optional_float_ge0. rewrite Hb, Hq.
      destruct (Qle_bool 0 q) eqn:E.
      - apply Qle_bool_iff in E. exfalso. exact (Qlt_not_le _ _ Hneg E).
      - destruct j; congruence. }
    apply product_errors_elem. unfold product_errors.
    destruct Hf as [-> | ->]; rewrite Hr; simpl; set_solver.
  - intros z Hb Hz Hneg.
    assert (Hr : optional_int_ge0 "warranty_months" b = None).
    { unfold optional_int_ge0. rewrite Hb, Hz.
      destruct (0 <=? z)%Z eqn:E; [apply Z.leb_le in E; lia|].
      destruct j; congruence. }
    apply product_errors_elem. unfold product_errors.
    rewrite Hr. simpl. set_solver.
Qed.

End ProductValidation.

(** ** Further properties: the shape of bodies and records *)

Lemma not_elem_of_ne (k f : string) (l : list string) :
  k ∉ l -> f ∈ l -> f <> k.
Proof. intros Hk Hf ->. exact (Hk Hf). Qed.

(** X4. Members that are no field of the model are ignored: adding one to
    a body, ["_id"] included, changes nothing in what validation returns,
    for products and for inquiries. *)
Theorem unknown_members_are_ignored {C : Coercions} (b : body) (k : string)
    (v : json) :
  (k ∉ product_model_fields ->
   validate_product (<[k := v]> b) = validate_product b)
  /\ (k ∉ inquiry_model_fields ->
      validate_inquiry (<[k := v]> b) = validate_inquiry b).
Proof.
  split; intros Hk.
  - assert (Hl : forall f, f ∈ product_model_fields ->
                           <[k := v]> b !! f = b !! f).
    { intros f Hf. apply lookup_insert_ne.
      intros ->. exact (Hk Hf). }
    unfold validate_product, required_str, required_literal,
      optional_float_ge0, optional_int_ge0, optional_str, bool_with_default.
    rewrite !Hl by (apply (bool_decide_unpack _); reflexivity).
    reflexivity.
  - assert (Hl : forall f, f ∈ inquiry_model_fields ->
                           <[k := v]> b !! f = b !! f).
    { intros f Hf. apply lookup_insert_ne.
      intros ->. exact (Hk Hf). }
    unfold validate_inquiry, required_str, literal_with_default, optional_str.
    rewrite !Hl by (apply (bool_decide_unpack _); reflexivity).
    reflexivity.
Qed.

(** X5. The record stored for a product has the fields [GET /schema] lists
    for the product collection and no other, and likewise for an inquiry. *)
Theorem dump_has_the_schema_fields (p : Product) (i : Inquiry) :
  exists product_schema inquiry_schema,
    get_schema !! "collections" = Some [product_schema; inquiry_schema]
    /\ schema_name product_schema = "product"
    /\ schema_name inquiry_schema = "inquiry"
    /\ (forall k, is_Some (model_dump p !! k)
                  <-> k ∈ schema_fields product_schema)
    /\ (forall k, is_Some (model_dump i !! k)
                  <-> k ∈ schema_fields inquiry_schema).
Proof.
  eexists _, _. split; [reflexivity|]. split; [reflexivity|].
  split; [reflexivity|]. simpl. split; intros k.
  - unfold model_dump, product_dump, product_model_fields.
    rewrite !lookup_insert_is_Some, lookup_empty, <- !not_eq_None_Some.
    rewrite !elem_of_cons, elem_of_nil. intuition congruence.
  - unfold model_dump, inquiry_dump, inquiry_model_fields.
    rewrite !lookup_insert_is_Some, lookup_empty, <- !not_eq_None_Some.
    rewrite !elem_of_cons, elem_of_nil. intuition congruence.
Qed.

(** X6. A body made of a name, a brand and a type is accepted exactly when
    the brand is one [GET /api/brands] offers and the type is one
    [GET /api/types] offers; the product then takes the defaults of the
    schema. *)
Theorem offered_values_are_the_accepted_ones {C : Coercions}
    (n br ty : string) :
  let b : body := {[ "name" := JStr n; "brand" := JStr br; "type" := JStr ty ]} in
  (br ∈ default [] (get_brands !! "brands")
   /\ ty ∈ default [] (get_types !! "types")
   -> validate_product b
      = inr {| name := n; brand := br; type := ty; capacity_ah := None;
               warranty_months := None; price := None; description := None;
               in_stock := true |})
  /\ ((exists p, validate_product b = inr p)
      -> br ∈ default [] (get_brands !! "brands")
         /\ ty ∈ default [] (get_types !! "types")).
Proof.
  intros b. split.
  - intros [Hb Ht].
    unfold validate_product, required_str, required_literal,
      optional_float_ge0, optional_int_ge0, optional_str, bool_with_default.
    change (b !! "name") with (Some (JStr n)).
    change (b !! "brand") with (Some (JStr br)).
    change (b !! "type") with (Some (JStr ty)).
    change (b !! "capacity_ah") with (@None json).
    change (b !! "warranty_months") with (@None json).
    change (b !! "price") with (@None json).
    change (b !! "description") with (@None json).
    change (b !! "in_stock") with (@None json).
    cbv beta iota.
    rewrite (bool_decide_eq_true_2 (br ∈ brand_literals)) by exact Hb.
    rewrite (bool_decide_eq_true_2 (ty ∈ type_literals)) by exact Ht.
    reflexivity.
  - intros [p Hp].
    destruct (validate_product_accepts b p Hp) as (_ & Hb & Ht).
    apply required_literal_allowed in Hb as [Hb1 Hb2].
    apply required_literal_allowed in Ht as [Ht1 Ht2].
    change (b !! "brand") with (Some (JStr br)) in Hb1.
    change (b !! "type") with (Some (JStr ty)) in Ht1.
    injection Hb1 as ->. injection Ht1 as ->. auto.
Qed.

(** ** Further properties: validation of inquiries *)

(** An accepted body determines every field of the inquiry. *)
Lemma validate_inquiry_fields b i :
  validate_inquiry b = inr i ->
  required_str "name" b = Some (inq_name i)
  /\ required_str "phone" b = Some (phone i)
  /\ optional_str None "message" b = Some (message i)
  /\ optional_str None "product_type" b = Some (product_type i)
  /\ optional_str None "brand" b = Some (inq_brand i)
  /\ literal_with_default contact_literals "whatsapp" "preferred_contact" b
     = Some (preferred_contact i)
  /\ optional_str (Some "Veraval, Gir Somnath") "city" b = Some (city i).
Proof.
  unfold validate_inquiry.
  destruct (required_str "name" b), (required_str "phone" b),
    (optional_str None "message" b), (optional_str None "product_type" b),
    (optional_str None "brand" b),
    (literal_with_default contact_literals "whatsapp" "preferred_contact" b),
    (optional_str (Some "Veraval, Gir Somnath") "city" b);
    simpl; try discriminate.
  intros [= <-]. simpl. repeat split; reflexivity.
Qed.

(** X7. The brand and the product type of an inquiry are free text: in an
    accepted body either can be replaced by any text, inside or outside the
    enumerations of [Product], and the body is still accepted, with that
    text in the inquiry. *)
Theorem inquiry_brand_and_type_are_free_text (b : body) (i : Inquiry)
    (s : string) :
  validate_inquiry b = inr i ->
  validate_inquiry (<["brand" := JStr s]> b)
  = inr {| inq_name := inq_name i; phone := phone i; message := message i;
           product_type := product_type i; inq_brand := Some s;
           preferred_contact := preferred_contact i; city := city i |}
  /\ validate_inquiry (<["product_type" := JStr s]> b)
     = inr {| inq_name := inq_name i; phone := phone i; message := message i;
              product_type := Some s; inq_brand := inq_brand i;
              preferred_contact := preferred_contact i; city := city i |}.
Proof.
  intros Hv.
  destruct (validate_inquiry_fields b i Hv) as (Hn & Hp & Hm & Ht & Hb & Hc & Hy).
  unfold validate_inquiry.
  unfold required_str, optional_str, literal_with_default in *.
  split.
  - rewrite lookup_insert_eq, !lookup_insert_ne by discriminate.
    rewrite Hn, Hp, Hm, Ht, Hc, Hy. reflexivity.
  - rewrite lookup_insert_eq, !lookup_insert_ne by discriminate.
    rewrite Hn, Hp, Hm, Hb, Hc, Hy. reflexivity.
Qed.

(** X8. A [preferred_contact] that is given and is neither "call" nor
    "whatsapp" is refused: the request is answered 422 with the field among
    those in error, and nothing is stored. *)
Theorem unknown_contact_is_rejected (b : body) (j : json)
    (db : option Database) :
  b !! "preferred_contact" = Some j ->
  (forall s, j = JStr s -> s ∉ contact_literals) ->
  exists fields,
    post_api_inquiries b db = (Return (RequestValidationError fields), db)
    /\ "preferred_contact" ∈ fields.
Proof.
  intros Hb Hj.
  assert (Hr : literal_with_default contact_literals "whatsapp"
                 "preferred_contact" b = None).
  { unfold literal_with_default. rewrite Hb.
    destruct j as [| | | |s| |]; try reflexivity.
    rewrite bool_decide_eq_false_2; [reflexivity|]. apply Hj. reflexivity. }
  unfold post_api_inquiries, validate_inquiry. rewrite Hr.
  destruct (required_str "name" b), (required_str "phone" b),
    (optional_str None "message" b), (optional_str None "product_type" b),
    (optional_str None "brand" b),
    (optional_str (Some "Veraval, Gir Somnath") "city" b);
    simpl; (eexists; split; [reflexivity|]); set_solver.
Qed.

(** X9. The default city applies only when the member is absent: an
    accepted body whose [city] is [null] yields an inquiry without a city,
    stored as [None], and a body whose [city] is a text keeps that text. *)
Theorem city_default_needs_absence (b : body) (i : Inquiry) :
  validate_inquiry b = inr i ->
  (b !! "city" = None -> city i = Some "Veraval, Gir Somnath")
  /\ (b !! "city" = Some JNull ->
      city i = None /\ model_dump i !! "city" = Some VNone)
  /\ (forall s, b !! "city" = Some (JStr s) ->
        city i = Some s /\ model_dump i !! "city" = Some (VStr s)).
Proof.
  intros Hv.
  destruct (validate_inquiry_fields b i Hv) as (_ & _ & _ & _ & _ & _ & Hy).
  unfold optional_str in Hy.
  assert (Hd : forall v, city i = v ->
                 model_dump i !! "city" = Some (of_optional VStr v)).
  { intros v <-. reflexivity. }
  split; [|split].
  - intros E. rewrite E in Hy. congruence.
  - intros E. rewrite E in Hy. injection Hy as Hy.
    split; [congruence|]. apply (Hd None). congruence.
  - intros s E. rewrite E in Hy. injection Hy as Hy.
    split; [congruence|]. apply (Hd (Some s)). congruence.
Qed.

(** ** Further properties: the store behind the handlers *)

Lemma spend_collection name d : collection name (spend d) = collection name d.
Proof. unfold collection. rewrite (proj1 (spend_keeps d)). reflexivity. Qed.

Lemma spend_reachable d : reachable d -> spend d = d.
Proof. unfold reachable, spend. intros ->. reflexivity. Qed.

(** [create_document] on a connected handle: it raises when the store is
    lost and stores the document otherwise. *)
Lemma create_document_run {A} `{ModelDump A} name (data : A) d :
  model_dump data !! "_id" = None ->
  create_document name data (Some d)
  = match outage d with
    | Some O => (Raise connection_lost, Some d)
    | _ => (Return (id_text (next_id d)),
            Some (stored name (model_dump data) (spend d)))
    end.
Proof.
  intros Hid.
  unfold create_document, bind, on_db, insert_one, operation, ret, stored,
    spend, collection.
  destruct (outage d) as [[|k]|] eqn:E; rewrite ?Hid; simpl; rewrite ?E;
    reflexivity.
Qed.

(** [get_documents] on a connected handle. *)
Lemma get_documents_run name f limit d :
  get_documents name f limit (Some d)
  = match outage d with
    | Some O => (Raise connection_lost, Some d)
    | _ => (match select f (collection name d) with
            | Some r => Return (cursor_limit limit r)
            | None => Unmodelled
            end, Some (spend d))
    end.
Proof.
  unfold get_documents, on_db, find, operation, spend, collection.
  destruct (outage d) as [[|k]|]; try reflexivity; simpl;
    match goal with |- context [select ?f ?c] => destruct (select f c) end;
    reflexivity.
Qed.

Lemma post_api_products_reachable {C : Coercions} b p d :
  validate_product b = inr p -> reachable d ->
  post_api_products b (Some d)
  = (Return (Response 201 {| id := id_text (next_id d);
                             created_message := "Product added" |}),
     Some (stored "product" (model_dump p) d)).
Proof.
  intros Hv Hr. unfold post_api_products. rewrite Hv.
  unfold respond, add_product, bind, db_is_none. cbn -[create_document].
  rewrite (create_document_reachable "product" p d Hr (product_dump_no_id p)).
  reflexivity.
Qed.

(** X10. On a reachable store a valid creation request is answered 201
    with the identifier of the new record; the record is the dump of the
    product under that identifier, placed after the products already there,
    and no other collection changes. *)
Theorem creation_appends_one_record {C : Coercions} (b : body) (p : Product)
    (d : Database) :
  validate_product b = inr p -> reachable d ->
  exists d',
    post_api_products b (Some d)
    = (Return (Response 201 {| id := id_text (next_id d);
                               created_message := "Product added" |}),
       Some d')
    /\ collection "product" d'
       = collection "product" d
         ++ [<["_id" := VObjectId (next_id d)]> (model_dump p)]
    /\ (forall c, c <> "product" -> collection c d' = collection c d)
    /\ reachable d'.
Proof.
  intros Hv Hr. exists (stored "product" (model_dump p) d).
  split; [exact (post_api_products_reachable b p d Hv Hr)|].
  split; [apply collection_stored_eq|]. split.
  - intros c Hc. apply collection_stored_ne. congruence.
  - apply stored_reachable, Hr.
Qed.

(** X11. Creation does not look for an existing record: the same valid
    body sent twice is stored twice, under two different identifiers. *)
Theorem same_body_twice_is_stored_twice {C : Coercions} (b : body)
    (p : Product) (d : Database) :
  validate_product b = inr p -> reachable d ->
  exists c1 c2 d1 d2 doc1 doc2,
    post_api_products b (Some d) = (Return (Response 201 c1), Some d1)
    /\ post_api_products b (Some d1) = (Return (Response 201 c2), Some d2)
    /\ id c1 <> id c2
    /\ collection "product" d2 = collection "product" d ++ [doc1; doc2]
    /\ delete "_id" doc1 = model_dump p
    /\ delete "_id" doc2 = model_dump p
    /\ doc1 !! "_id" <> doc2 !! "_id".
Proof.
  intros Hv Hr.
  pose proof (stored_reachable "product" (model_dump p) d Hr) as Hr1.
  eexists _, _, _, _, _, _.
  split; [exact (post_api_products_reachable b p d Hv Hr)|].
  split; [exact (post_api_products_reachable b p _ Hv Hr1)|].
  split; [|split; [|split; [|split]]].
  - simpl. intros E. apply (inj pretty) in E. lia.
  - rewrite !collection_stored_eq, <- app_assoc. reflexivity.
  - apply delete_insert_id, product_dump_no_id.
  - apply delete_insert_id, product_dump_no_id.
  - rewrite !lookup_insert_eq. simpl. intros [= E]. lia.
Qed.

(** X12. No item of a listing carries the identifier of the store. *)
Theorem listed_items_have_no_id (brand type q : option string)
    (limit : option Z) (db db' : option Database) (listing : ProductsListing) :
  get_api_products brand type q limit db
  = (Return (Response 200 listing), db') ->
  forall item, item ∈ items listing -> item !! "_id" = None.
Proof.
  unfold get_api_products, respond, list_products, bind, db_is_none, raise, ret.
  destruct db as [d|]; [|discriminate]. cbv iota beta.
  match goal with
  | |- context [get_documents ?n ?f ?l ?s] =>
      destruct (get_documents n f l s) as [[r|[]|] db'']
  end; try discriminate.
  intros [= <- _] item Hitem. simpl in Hitem.
  apply list_elem_of_fmap in Hitem as (x & -> & _).
  apply lookup_delete_eq.
Qed.

(** X13. When the handle is connected and the store cannot be reached, the
    exception of the store is not caught: listing, product creation and
    inquiry creation are answered 500, and the store is as it was. *)
Theorem lost_store_is_a_server_error {C : Coercions}
    (brand type q : option string) (limit : option Z) (b : body)
    (d : Database) :
  outage d = Some 0 ->
  get_api_products brand type q limit (Some d)
  = (Return (ErrorResponse 500 "Internal Server Error"), Some d)
  /\ (forall p, validate_product b = inr p ->
        post_api_products b (Some d)
        = (Return (ErrorResponse 500 "Internal Server Error"), Some d))
  /\ (forall i, validate_inquiry b = inr i ->
        post_api_inquiries b (Some d)
        = (Return (ErrorResponse 500 "Internal Server Error"), Some d)).
Proof.
  intros Ho. split; [|split].
  - unfold get_api_products, respond, list_products, bind, db_is_none.
    cbv iota beta. rewrite get_documents_run, Ho. reflexivity.
  - intros p Hv. unfold post_api_products. rewrite Hv.
    unfold respond, add_product, bind, db_is_none. cbv iota beta.
    rewrite (create_document_run "product" p d (product_dump_no_id p)), Ho.
    reflexivity.
  - intros i Hv. unfold post_api_inquiries. rewrite Hv.
    unfold respond, create_inquiry, bind, db_is_none. cbv iota beta.
    rewrite (create_document_run "inquiry" i d (inquiry_dump_no_id i)), Ho.
    reflexivity.
Qed.

(** ** Further properties: what a listing returns *)

Lemma list_products_equalities brand type limit d :
  list_products brand type None limit (Some d)
  = match outage d with
    | Some O => (Raise connection_lost, Some d)
    | _ =>
        let found :=
          cursor_limit (default 50%Z limit)
            (List.filter (in_scope brand type) (collection "product" d)) in
        (Return {| items := delete "_id" <$> found;
                   total := length (delete "_id" <$> found) |},
         Some (spend d))
    end.
Proof.
  unfold list_products, bind, db_is_none, ret.
  cbn -[get_documents truthy]. change (truthy None) with (@None string).
  cbv iota. rewrite get_documents_run.
  rewrite (select_filter _ (in_scope brand type) _
             (equality_filters_match brand type)).
  destruct (outage d) as [[|k]|]; reflexivity.
Qed.

(** X14. Without a text query, a listing with a positive limit on a
    reachable store is answered 200 with the products that have the brand
    and the type asked for (a parameter left out or empty asks nothing), in
    the order in which they were stored, cut after [limit] records and
    stripped of their identifiers; [total] counts the records returned and
    the store is not changed. *)
Theorem listing_is_the_filtered_prefix (brand type : option string)
    (limit : option Z) (d : Database) :
  reachable d ->
  (0 < default 50%Z limit)%Z ->
  let found :=
    take (Z.to_nat (default 50%Z limit))
      (List.filter (in_scope brand type) (collection "product" d)) in
  get_api_products brand type None limit (Some d)
  = (Return (Response 200 {| items := delete "_id" <$> found;
                             total := length found |}),
     Some d).
Proof.
  intros Hr Hl found. unfold get_api_products, respond.
  rewrite list_products_equalities. unfold reachable in Hr. rewrite Hr.
  cbv zeta. rewrite (cursor_limit_pos _ _ Hl). fold found.
  rewrite length_fmap, (spend_reachable d Hr). reflexivity.
Qed.

(** ** Further properties: what startup writes *)

(** What a run of insertions leaves in the store. *)
Lemma stored_all_content ys d :
  collection "product" (stored_all "product" ys d)
  = collection "product" d ++ stamp (next_id d) ys
  /\ next_id (stored_all "product" ys d) = next_id d + length ys
  /\ (forall c, c <> "product" ->
        collection c (stored_all "product" ys d) = collection c d).
Proof.
  revert d. induction ys as [|y ys IH]; intros d.
  - simpl. rewrite app_nil_r. split; [reflexivity|]. split; [lia|auto].
  - change (stored_all "product" (y :: ys) d)
      with (stored_all "product" ys (stored "product" y (spend d))).
    destruct (IH (stored "product" y (spend d))) as (Hc & Hn & Ho).
    rewrite Hc, Hn. rewrite collection_stored_eq, spend_collection.
    change (next_id (stored "product" y (spend d)))
      with (S (next_id (spend d))).
    rewrite (proj2 (spend_keeps d)).
    split; [rewrite <- app_assoc; reflexivity|].
    split; [simpl; lia|].
    intros c Hne. rewrite (Ho c Hne).
    rewrite collection_stored_ne by congruence. apply spend_collection.
Qed.

(** The loop of the startup hook on a connected handle: it stores a prefix
    of its documents, all of them unless the store is lost on the way. *)
Lemma seeding_loop_run (xs : list document) d :
  Forall (fun s : document => s !! "_id" = None) xs ->
  exists n,
    n <= length xs
    /\ (reachable d -> n = length xs)
    /\ exists r,
         for_each xs (fun s => create_document "product" s ;;; ret tt) (Some d)
         = (r, Some (stored_all "product" (take n xs) d))
         /\ settled (r, Some (stored_all "product" (take n xs) d)).
Proof.
  intros Hxs. revert d. induction Hxs as [|x xs Hx _ IH]; intros d.
  - exists 0. split; [reflexivity|]. split; [reflexivity|].
    exists (Return tt). split; [reflexivity|exact I].
  - assert (Hstep : for_each (x :: xs)
                      (fun s => create_document "product" s ;;; ret tt) (Some d)
                    = match outage d with
                      | Some O => (Raise connection_lost, Some d)
                      | _ => for_each xs
                               (fun s => create_document "product" s ;;; ret tt)
                               (Some (stored "product" x (spend d)))
                      end).
    { cbn [for_each]. unfold bind at 1. unfold bind at 1.
      rewrite (create_document_run (H := dict_dump) "product" x d Hx).
      destruct (outage d) as [[|k]|]; reflexivity. }
    rewrite Hstep. clear Hstep.
    destruct (outage d) as [[|k]|] eqn:Ho.
    + exists 0. split; [simpl; lia|]. split.
      * unfold reachable. congruence.
      * exists (Raise connection_lost). split; [reflexivity|exact I].
    + destruct (IH (stored "product" x (spend d))) as (n & Hn & _ & r & Hr & Hs).
      exists (S n). split; [simpl; lia|]. split.
      * unfold reachable. congruence.
      * exists r. split; [exact Hr|exact Hs].
    + destruct (IH (stored "product" x (spend d))) as (n & Hn & Hall & r & Hr & Hs).
      exists (S n). split; [simpl; lia|]. split.
      * intros _. simpl. f_equal. apply Hall.
        unfold reachable, stored, spend. rewrite Ho. simpl. exact Ho.
      * exists r. split; [exact Hr|exact Hs].
Qed.

(** The startup hook on a connected handle, in every state of the store. *)
Lemma stored_all_reachable ys d :
  reachable d -> reachable (stored_all "product" ys d).
Proof.
  revert d. induction ys as [|y ys IH]; intros d Hr; [exact Hr|].
  change (stored_all "product" (y :: ys) d)
    with (stored_all "product" ys (stored "product" y (spend d))).
  apply IH. rewrite (spend_reachable d Hr). apply stored_reachable, Hr.
Qed.

Lemma seed_products_run d :
  exists n d',
    seed_products (Some d) = (Return tt, Some d')
    /\ n <= length samples
    /\ collection "product" d'
       = collection "product" d ++ stamp (next_id d) (take n samples)
    /\ (forall c, c <> "product" -> collection c d' = collection c d)
    /\ (collection "product" d <> [] -> n = 0)
    /\ (reachable d -> collection "product" d = [] -> n = length samples)
    /\ (reachable d -> reachable d').
Proof.
  assert (Hseed : seed_products (Some d)
                  = match outage d with
                    | Some O => (Return tt, Some d)
                    | _ =>
                        if (length (collection "product" d) =? 0)%nat
                        then try_except
                               (for_each samples
                                  (fun s => create_document "product" s ;;; ret tt))
                               (fun _ => ret tt) (Some (spend d))
                        else (Return tt, Some (spend d))
                    end).
  { unfold seed_products, bind at 1, db_is_none. cbv iota beta.
    unfold try_except at 1, bind at 1, on_db. rewrite count_documents_all.
    destruct (outage d) as [[|k]|]; [reflexivity| |];
      destruct (length (collection "product" d) =? 0)%nat; reflexivity. }
  rewrite Hseed. clear Hseed.
  assert (Hloop : collection "product" d = [] ->
            exists n,
              n <= length samples
              /\ (reachable (spend d) -> n = length samples)
              /\ try_except
                   (for_each samples
                      (fun s => create_document "product" s ;;; ret tt))
                   (fun _ => ret tt) (Some (spend d))
                 = (Return tt,
                    Some (stored_all "product" (take n samples) (spend d)))
              /\ collection "product"
                   (stored_all "product" (take n samples) (spend d))
                 = collection "product" d ++ stamp (next_id d) (take n samples)
              /\ (forall c, c <> "product" ->
                    collection c (stored_all "product" (take n samples) (spend d))
                    = collection c d)).
  { intros Hc.
    destruct (seeding_loop_run samples (spend d) samples_have_no_id)
      as (n & Hn & Hall & r & Hr & Hs).
    destruct (stored_all_content (take n samples) (spend d)) as (H1 & _ & H3).
    exists n. split; [exact Hn|]. split; [exact Hall|]. split; [|split].
    - unfold try_except. rewrite Hr.
      destruct r as [[]| |]; [reflexivity|reflexivity|destruct Hs].
    - rewrite H1, spend_collection, (proj2 (spend_keeps d)). reflexivity.
    - intros c Hne. rewrite (H3 c Hne). apply spend_collection. }
  assert (Hquiet : exists n d',
            (Return tt, Some (spend d)) = (Return tt, Some d')
            /\ n <= length samples
            /\ collection "product" d'
               = collection "product" d ++ stamp (next_id d) (take n samples)
            /\ (forall c, c <> "product" -> collection c d' = collection c d)
            /\ n = 0).
  { exists 0, (spend d). simpl. rewrite app_nil_r.
    repeat split; auto; try lia; [apply spend_collection|].
    intros c _. apply spend_collection. }
  destruct (outage d) as [[|k]|] eqn:Ho.
  - exists 0, d. simpl. rewrite app_nil_r.
    repeat split; auto; try lia; unfold reachable; congruence.
  - destruct (collection "product" d) as [|x xs] eqn:Hc.
    + destruct (Hloop eq_refl) as (n & Hn & _ & Hr & H1 & H3).
      exists n, (stored_all "product" (take n samples) (spend d)).
      cbn [length Nat.eqb]. split; [exact Hr|]. split; [exact Hn|].
      split; [exact H1|]. split; [exact H3|].
      split; [congruence|]. split; unfold reachable; congruence.
    + destruct Hquiet as (n & d' & H0 & Hn & H1 & H3 & ->).
      exists 0, d'. cbn [length Nat.eqb]. split; [exact H0|].
      split; [exact Hn|]. split; [exact H1|]. split; [exact H3|].
      split; [reflexivity|]. split; [discriminate|].
      unfold reachable. congruence.
  - destruct (collection "product" d) as [|x xs] eqn:Hc.
    + destruct (Hloop eq_refl) as (n & Hn & Hall & Hr & H1 & H3).
      exists n, (stored_all "product" (take n samples) (spend d)).
      cbn [length Nat.eqb]. split; [exact Hr|]. split; [exact Hn|].
      split; [exact H1|]. split; [exact H3|].
      split; [congruence|]. split.
      * intros _ _. apply Hall. unfold reachable, spend. rewrite Ho. exact Ho.
      * intros Hd. rewrite (spend_reachable d Hd).
        apply stored_all_reachable, Hd.
    + destruct Hquiet as (n & d' & H0 & Hn & H1 & H3 & ->).
      exists 0, d'. cbn [length Nat.eqb]. split; [exact H0|].
      split; [exact Hn|]. split; [exact H1|]. split; [exact H3|].
      split; [reflexivity|]. split; [discriminate|].
      intros Hd. injection H0 as <-. rewrite (spend_reachable d Hd). exact Hd.
Qed.

(** X15. Startup on a store with no product writes the six samples in the
    order of the source, under consecutive fresh identifiers, when the store
    stays reachable; when the connection is lost on the way it leaves the
    first [n] of them, for some [n], and still returns.  No other collection
    is touched. *)
Theorem seeding_writes_a_prefix_of_the_samples (d : Database) :
  collection "product" d = [] ->
  exists n d',
    seed_products (Some d) = (Return tt, Some d')
    /\ n <= 6
    /\ collection "product" d' = stamp (next_id d) (take n samples)
    /\ (forall c, c <> "product" -> collection c d' = collection c d)
    /\ (reachable d -> collection "product" d' = stamp (next_id d) samples).
Proof.
  intros Hc.
  destruct (seed_products_run d) as (n & d' & Hs & Hn & Hp & Ho & _ & Hall & _).
  exists n, d'. rewrite Hc in Hp. simpl in Hp.
  split; [exact Hs|]. split; [exact Hn|]. split; [exact Hp|].
  split; [exact Ho|].
  intros Hr. rewrite Hp, (Hall Hr Hc). reflexivity.
Qed.

(** ** Further properties: the catalogue stays valid *)

Lemma samples_are_dumps : samples = model_dump <$> sample_products.
Proof. reflexivity. Qed.

Lemma sample_products_valid : Forall schema_valid sample_products.
Proof.
  repeat constructor;
    try (apply (bool_decide_unpack _); reflexivity);
    try (intros ? [= <-]; unfold Qle; simpl; lia);
    try (intros ? [= <-]; lia);
    try discriminate.
Qed.

Lemma stamp_valid n (ps : list Product) :
  Forall schema_valid ps ->
  Forall valid_record (stamp n (model_dump <$> ps)).
Proof.
  intros Hps. revert n. induction Hps as [|p ps Hp _ IH]; intros n; simpl.
  - constructor.
  - constructor; [|apply IH].
    exists p. split; [exact Hp|].
    apply delete_insert_id, product_dump_no_id.
Qed.

Lemma stamp_take n k (docs : list document) :
  take k (stamp n docs) = stamp n (take k docs).
Proof.
  revert n k. induction docs as [|s docs IH]; intros n [|k]; simpl;
    try reflexivity.
  f_equal. apply IH.
Qed.

Lemma products_of_spend d : products_of (Some (spend d)) = products_of (Some d).
Proof. apply spend_collection. Qed.

(** A listing leaves the products of the store as they were. *)
Lemma listing_keeps_products brand type q limit db :
  products_of (snd (get_api_products brand type q limit db)) = products_of db.
Proof.
  unfold get_api_products, respond, list_products, bind, db_is_none, raise, ret.
  destruct db as [d|]; [|reflexivity]. cbv iota beta.
  rewrite get_documents_run.
  destruct (outage d) as [[|k]|] eqn:Ho; try reflexivity;
    match goal with
    | |- context [select ?f ?c] => destruct (select f c)
    end; simpl; rewrite ?spend_collection; reflexivity.
Qed.

(** A creation request adds the dump of the validated product or nothing. *)
Lemma creation_products {C : Coercions} b db :
  products_of (snd (post_api_products b db)) = products_of db
  \/ exists p d,
       validate_product b = inr p /\ db = Some d
       /\ products_of (snd (post_api_products b db))
          = products_of db ++ [<["_id" := VObjectId (next_id d)]> (model_dump p)].
Proof.
  unfold post_api_products.
  destruct (validate_product b) as [fields|p] eqn:Hv; [left; reflexivity|].
  destruct db as [d|]; [|left; reflexivity].
  unfold respond, add_product, bind, db_is_none. cbv iota beta.
  rewrite (create_document_run "product" p d (product_dump_no_id p)).
  destruct (outage d) as [[|k]|] eqn:Ho; [left; reflexivity| |];
    right; exists p, d; (split; [reflexivity|]); (split; [reflexivity|]);
    simpl; rewrite collection_stored_eq, spend_collection,
             (proj2 (spend_keeps d)); reflexivity.
Qed.

(** An inquiry leaves the products of the store as they were. *)
Lemma inquiry_keeps_products b db :
  products_of (snd (post_api_inquiries b db)) = products_of db.
Proof.
  unfold post_api_inquiries.
  destruct (validate_inquiry b) as [fields|i]; [reflexivity|].
  destruct db as [d|]; [|reflexivity].
  unfold respond, create_inquiry, bind, db_is_none. cbv iota beta.
  rewrite (create_document_run "inquiry" i d (inquiry_dump_no_id i)).
  destruct (outage d) as [[|k]|]; [reflexivity| |];
    simpl; rewrite collection_stored_ne by discriminate;
    apply spend_collection.
Qed.

(** The diagnostics leave the content of the store as it was. *)
Lemma diagnostics_keep_content env db :
  match db, snd (get_test env db) with
  | Some d, Some d' =>
      collections d' = collections d /\ next_id d' = next_id d
  | None, None => True
  | _, _ => False
  end.
Proof.
  destruct db as [d|]; [|exact I].
  cbv beta iota zeta delta
    [get_test respond test_database bind try_except probe on_db
     list_collection_names operation ret].
  destruct (outage d) as [[|k]|]; simpl; auto.
Qed.

Lemma startup_products db :
  exists n,
    products_of (snd (seed_products db))
    = products_of db ++ stamp (match db with Some d => next_id d | None => 0 end)
                          (take n samples).
Proof.
  destruct db as [d|].
  - destruct (seed_products_run d) as (n & d' & Hs & _ & Hp & _).
    exists n. rewrite Hs. exact Hp.
  - exists 0. reflexivity.
Qed.

Lemma after_keeps_valid {C : Coercions} r db :
  valid_catalogue db -> valid_catalogue (after r db).
Proof.
  unfold valid_catalogue. intros Hv. destruct r as [|brand type q limit|b|b|env].
  - simpl. destruct (startup_products db) as [n ->].
    apply Forall_app. split; [exact Hv|].
    rewrite samples_are_dumps, <- fmap_take.
    apply stamp_valid. apply Forall_take, sample_products_valid.
  - simpl. rewrite listing_keeps_products. exact Hv.
  - simpl. destruct (creation_products b db) as [->|(p & d & Hp & _ & ->)];
      [exact Hv|].
    apply Forall_app. split; [exact Hv|]. constructor; [|constructor].
    exists p. split; [exact (validate_product_sound b p Hp)|].
    apply delete_insert_id, product_dump_no_id.
  - simpl. rewrite inquiry_keeps_products. exact Hv.
  - simpl. pose proof (diagnostics_keep_content env db) as H.
    destruct db as [d|], (snd (get_test env _)) as [d'|];
      try contradiction; [|exact Hv].
    destruct H as [Hc _]. unfold products_of, collection in *.
    rewrite Hc. exact Hv.
Qed.

(** X16. Whatever requests the service has served since a state in which
    every stored product met the schema (an empty store is one), every
    stored product still meets it: startup and creation are the only writers
    of the product collection, and both write valid products only. *)
Theorem catalogue_stays_valid {C : Coercions} (rs : list request)
    (db : option Database) :
  valid_catalogue db -> valid_catalogue (after_all rs db).
Proof.
  unfold after_all. revert db.
  induction rs as [|r rs IH]; intros db Hv; simpl; [exact Hv|].
  apply IH, after_keeps_valid, Hv.
Qed.

(** ** Further properties: listings over the catalogue *)

Lemma get_api_products_equalities brand type limit d :
  reachable d ->
  get_api_products brand type None limit (Some d)
  = (Return (Response 200
       {| items :=
            delete "_id"
              <$> cursor_limit (default 50%Z limit)
                    (List.filter (in_scope brand type) (collection "product" d));
          total :=
            length (cursor_limit (default 50%Z limit)
                      (List.filter (in_scope brand type)
                         (collection "product" d))) |}),
     Some d).
Proof.
  intros Hr. unfold get_api_products, respond.
  rewrite list_products_equalities. unfold reachable in Hr. rewrite Hr.
  cbv zeta. rewrite length_fmap, (spend_reachable d Hr). reflexivity.
Qed.

Lemma filter_none {A} (g : A -> bool) (P : A -> Prop) l :
  Forall P l -> (forall x, P x -> g x = false) -> List.filter g l = [].
Proof.
  intros Hl Hg. induction Hl as [|x l Hx _ IH]; simpl; [reflexivity|].
  rewrite (Hg x Hx). exact IH.
Qed.

Lemma filter_all {A} (g : A -> bool) l :
  (forall x, g x = true) -> List.filter g l = l.
Proof.
  intros Hg. induction l as [|x l IH]; simpl; [reflexivity|].
  rewrite (Hg x), IH. reflexivity.
Qed.

Lemma valid_record_brand_type doc :
  valid_record doc ->
  exists br ty,
    doc !! "brand" = Some (VStr br) /\ br ∈ brand_literals
    /\ doc !! "type" = Some (VStr ty) /\ ty ∈ type_literals.
Proof.
  intros (p & (Hb & Ht & _) & Hd). exists (brand p), (type p).
  assert (Hk : forall k, k <> "_id" -> doc !! k = model_dump p !! k).
  { intros k Hk. rewrite <- Hd. symmetry. apply lookup_delete_ne. congruence. }
  rewrite !Hk by discriminate. repeat split; assumption.
Qed.

(** X17. Over a catalogue of valid products, a listing asked for a brand
    that [GET /api/brands] does not offer, or for a type that
    [GET /api/types] does not offer, is answered 200 with no item: the
    parameters are not checked against the enumerations. *)
Theorem unknown_brand_or_type_lists_nothing (brand type : option string)
    (limit : option Z) (d : Database) (s : string) :
  valid_catalogue (Some d) -> reachable d ->
  (truthy brand = Some s /\ s ∉ default [] (get_brands !! "brands"))
  \/ (truthy type = Some s /\ s ∉ default [] (get_types !! "types")) ->
  get_api_products brand type None limit (Some d)
  = (Return (Response 200 {| items := []; total := 0 |}), Some d).
Proof.
  intros Hv Hr Hs. rewrite (get_api_products_equalities brand type limit d Hr).
  rewrite (filter_none (in_scope brand type) valid_record
             (collection "product" d) Hv).
  - rewrite cursor_limit_nil. reflexivity.
  - intros doc Hdoc.
    destruct (valid_record_brand_type doc Hdoc) as (br & ty & Hb & Hbl & Ht & Htl).
    unfold in_scope, field_is. rewrite Hb, Ht.
    destruct Hs as [[-> Hn]|[-> Hn]].
    + assert (s <> br) by (intros ->; exact (Hn Hbl)).
      rewrite (proj2 (String.eqb_neq s br)) by assumption. reflexivity.
    + assert (s <> ty) by (intros ->; exact (Hn Htl)).
      rewrite (proj2 (String.eqb_neq s ty)) by assumption.
      apply andb_false_r.
Qed.

Lemma stamp_strip n (docs : list document) :
  Forall (fun s : document => s !! "_id" = None) docs ->
  delete "_id" <$> stamp n docs = docs.
Proof.
  intros H. revert n. induction H as [|s docs Hs _ IH]; intros n; simpl;
    [reflexivity|].
  rewrite (delete_insert_id s "_id" _ Hs), IH. reflexivity.
Qed.

Lemma stamp_length n (docs : list document) : length (stamp n docs) = length docs.
Proof. revert n. induction docs as [|s docs IH]; intros n; simpl; auto. Qed.

(** X18. After startup on a reachable store with no product, a listing
    with no filter and a limit of six or more is answered 200 with the six
    samples of the source, in their order. *)
Theorem seeded_store_lists_the_samples (d : Database) (limit : Z) :
  reachable d -> collection "product" d = [] -> (6 <= limit)%Z ->
  exists d',
    seed_products (Some d) = (Return tt, Some d')
    /\ get_api_products None None None (Some limit) (Some d')
       = (Return (Response 200 {| items := samples; total := 6 |}), Some d').
Proof.
  intros Hr Hc Hl.
  destruct (seed_products_run d) as (n & d' & Hs & _ & Hp & _ & _ & Hall & Hr').
  exists d'. split; [exact Hs|].
  rewrite (get_api_products_equalities None None (Some limit) d' (Hr' Hr)).
  rewrite Hp, Hc, (Hall Hr Hc), firstn_all, app_nil_l.
  rewrite (filter_all (in_scope None None)) by reflexivity.
  rewrite cursor_limit_all by (rewrite stamp_length; simpl; lia).
  rewrite (stamp_strip _ _ samples_have_no_id), stamp_length. reflexivity.
Qed.

Lemma post_api_inquiries_reachable b i d :
  validate_inquiry b = inr i -> reachable d ->
  post_api_inquiries b (Some d)
  = (Return (Response 201
       {| id := id_text (next_id d);
          created_message := "Thanks! We will contact you shortly." |}),
     Some (stored "inquiry" (model_dump i) d)).
Proof.
  intros Hv Hr. unfold post_api_inquiries. rewrite Hv.
  unfold respond, create_inquiry, bind, db_is_none. cbn -[create_document].
  rewrite (create_document_reachable "inquiry" i d Hr (inquiry_dump_no_id i)).
  reflexivity.
Qed.

(** X19. Inquiries and products are kept apart: on a reachable store an
    inquiry request, accepted or not, changes the answer of no product
    listing. *)
Theorem inquiry_leaves_listings_alone (b : body) (brand type q : option string)
    (limit : option Z) (d : Database) :
  reachable d ->
  fst (get_api_products brand type q limit (snd (post_api_inquiries b (Some d))))
  = fst (get_api_products brand type q limit (Some d)).
Proof.
  intros Hr.
  destruct (validate_inquiry b) as [fields|i] eqn:Hv.
  - unfold post_api_inquiries. rewrite Hv. reflexivity.
  - rewrite (post_api_inquiries_reachable b i d Hv Hr). cbn [snd].
    unfold get_api_products, respond, list_products, bind, db_is_none.
    cbv iota beta. rewrite !get_documents_run.
    rewrite collection_stored_ne by discriminate.
    change (outage (stored "inquiry" (model_dump i) d)) with (outage d).
    unfold reachable in Hr. rewrite Hr.
    match goal with
    | |- context [select ?f ?c] => destruct (select f c)
    end; reflexivity.
Qed.

(** ** Further properties: the diagnostics *)

(** X20. The diagnostics only read: the collections and the identifier
    counter of the store are as before.  The collection names they report
    are names of collections of the store, each once and ten at most. *)
Theorem diagnostics_only_read (env : environ) (db : option Database) :
  exists r db' reported,
    get_test env db = (Return (Response 200 r), db')
    /\ r !! "collections" = Some (DList reported)
    /\ length reported <= 10
    /\ NoDup reported
    /\ (forall n, n ∈ reported ->
          exists d, db = Some d /\ is_Some (collections d !! n))
    /\ match db, db' with
       | Some d, Some d' =>
           collections d' = collections d /\ next_id d' = next_id d
       | None, None => True
       | _, _ => False
       end.
Proof.
  assert (Hnames : forall d : Database,
            length (take 10 (map_to_list (collections d)).*1) <= 10
            /\ NoDup (take 10 (map_to_list (collections d)).*1)
            /\ forall n, n ∈ take 10 (map_to_list (collections d)).*1 ->
                 is_Some (collections d !! n)).
  { intros d. split; [rewrite length_take; lia|]. split.
    - apply (sublist_NoDup _ (map_to_list (collections d)).*1);
        [apply NoDup_fst_map_to_list|apply sublist_take].
    - intros n Hn. apply subseteq_take in Hn.
      apply list_elem_of_fmap in Hn as ([k v] & -> & Hkv).
      apply elem_of_map_to_list in Hkv. simpl. eauto. }
  destruct db as [d|].
  - destruct (Hnames d) as (Hlen & Hnd & Hin).
    cbv beta iota zeta delta
      [get_test respond test_database bind try_except probe on_db
       list_collection_names operation ret].
    destruct (outage d) as [[|k]|]; cbv beta iota zeta.
    + eexists _, _, []. split; [reflexivity|]. split; [reflexivity|].
      split; [simpl; lia|]. split; [constructor|].
      split; [intros n Hn; inversion Hn|]. split; reflexivity.
    + eexists _, _, _. split; [reflexivity|]. split; [reflexivity|].
      split; [exact Hlen|]. split; [exact Hnd|].
      split; [intros n Hn; exists d; split; [reflexivity|exact (Hin n Hn)]|].
      split; reflexivity.
    + eexists _, _, _. split; [reflexivity|]. split; [reflexivity|].
      split; [exact Hlen|]. split; [exact Hnd|].
      split; [intros n Hn; exists d; split; [reflexivity|exact (Hin n Hn)]|].
      split; reflexivity.
  - eexists _, _, []. split; [reflexivity|]. split; [reflexivity|].
    split; [simpl; lia|]. split; [constructor|].
    split; [intros n Hn; inversion Hn|exact I].
Qed.

(** ** Further properties: letter case in text queries *)

Lemma match_here_casefold q q' s :
  casefold q = casefold q' ->
  match_here true (Lit <$> q) s = match_here true (Lit <$> q') s.
Proof.
  revert q' s. induction q as [|c q IH]; intros [|c' q'] s; simpl;
    try discriminate; [reflexivity|].
  intros [= Hc Hq]. destruct s as [|x s]; [reflexivity|].
  rewrite Hc. f_equal. exact (IH q' s Hq).
Qed.

Lemma search_casefold q q' s :
  casefold q = casefold q' ->
  search true (Lit <$> q) s = search true (Lit <$> q') s.
Proof.
  intros H. induction s as [|x s IH]; cbn [search];
    rewrite (match_here_casefold q q' _ H); [reflexivity|].
  rewrite IH. reflexivity.
Qed.

Lemma regex_search_casefold q q' s :
  plain q = true -> plain q' = true ->
  casefold (list_ascii_of_string q) = casefold (list_ascii_of_string q') ->
  regex_search q "i" s = regex_search q' "i" s.
Proof.
  intros Hq Hq' H.
  rewrite (regex_search_plain q s Hq), (regex_search_plain q' s Hq'),
    (search_casefold _ _ _ H).
  reflexivity.
Qed.

Lemma map_Forall_insert_swap (P : string -> condition -> Prop)
    (f : query_filter) k c c' :
  (P k c <-> P k c') ->
  map_Forall P (<[k := c]> f) <-> map_Forall P (<[k := c']> f).
Proof.
  intros Hiff. unfold map_Forall. split; intros H i x Hi;
    apply lookup_insert_Some in Hi as [[<- <-]|[Hne Hi]];
    try (apply Hiff, H, lookup_insert_eq);
    apply H; rewrite lookup_insert_ne by exact Hne; exact Hi.
Qed.

Lemma document_matches_swap (f : query_filter) k c c' d :
  condition_holds c (d !! k) = condition_holds c' (d !! k) ->
  document_matches (<[k := c]> f) d = document_matches (<[k := c']> f) d.
Proof.
  intros H. unfold document_matches.
  assert (H1 : map_Forall (fun k c => is_Some (condition_holds c (d !! k)))
                 (<[k := c]> f)
               <-> map_Forall (fun k c => is_Some (condition_holds c (d !! k)))
                     (<[k := c']> f)).
  { apply map_Forall_insert_swap. rewrite H. reflexivity. }
  assert (H2 : map_Forall (fun k c => condition_holds c (d !! k) = Some true)
                 (<[k := c]> f)
               <-> map_Forall (fun k c => condition_holds c (d !! k) = Some true)
                     (<[k := c']> f)).
  { apply map_Forall_insert_swap. rewrite H. reflexivity. }
  rewrite (bool_decide_ext _ _ H1), (bool_decide_ext _ _ H2). reflexivity.
Qed.

Lemma select_ext f f' docs :
  (forall d, document_matches f d = document_matches f' d) ->
  select f docs = select f' docs.
Proof.
  intros H. induction docs as [|d ds IH]; simpl; [reflexivity|].
  rewrite H, IH. reflexivity.
Qed.

Lemma get_documents_ext name f f' limit db :
  (forall docs, select f docs = select f' docs) ->
  get_documents name f limit db = get_documents name f' limit db.
Proof.
  intros H. destruct db as [d|]; [|reflexivity].
  rewrite !get_documents_run, H. reflexivity.
Qed.

(** X21. The text query is blind to letter case: two queries without
    metacharacters that differ only in the case of their letters are
    answered alike, under every brand, type and limit and in every state of
    the store. *)
Theorem query_case_is_ignored (brand type : option string) (q q' : string)
    (limit : option Z) (db : option Database) :
  plain q = true -> plain q' = true ->
  casefold (list_ascii_of_string q) = casefold (list_ascii_of_string q') ->
  get_api_products brand type (Some q) limit db
  = get_api_products brand type (Some q') limit db.
Proof.
  intros Hq Hq' H.
  destruct q as [|c q], q' as [|c' q']; try discriminate H; [reflexivity|].
  unfold get_api_products, respond, list_products, bind, db_is_none.
  destruct db as [d|]; [|reflexivity]. cbv iota beta.
  change (truthy (Some (String c q))) with (Some (String c q)).
  change (truthy (Some (String c' q'))) with (Some (String c' q')).
  cbv iota.
  match goal with
  | |- context [get_documents ?n (<["name" := Regex (String c q) "i"]> ?f) ?l ?s] =>
      rewrite (get_documents_ext n
                 (<["name" := Regex (String c q) "i"]> f)
                 (<["name" := Regex (String c' q') "i"]> f) l s)
  end; [reflexivity|].
  intros docs. apply select_ext. intros doc. apply document_matches_swap.
  simpl. rewrite (regex_search_casefold _ _ "" Hq Hq' H).
  destruct (doc !! "name") as [[| | | |s|]|]; try reflexivity.
  exact (regex_search_casefold _ _ s Hq Hq' H).
Qed.

(** ** The further properties at concrete requests *)

(** X1 for the inverter body. *)
Lemma accepted_product_is_valid_witness :
  validate_product (C := native) inverter_body = inr inverter
  /\ schema_valid inverter.
Proof.
  assert (Hv : validate_product (C := native) inverter_body = inr inverter)
    by (vm_compute; reflexivity).
  split; [exact Hv|].
  exact (accepted_product_is_valid (C := native) inverter_body inverter Hv).
Defined.

(** X2 for the brand "Duracell". *)
Lemma rejection_lists_declared_fields_witness :
  validate_product (C := native) duracell_body = inl ["brand"]
  /\ ["brand"] <> []
  /\ ["brand"] `sublist_of` product_model_fields
  /\ post_api_products (C := native) duracell_body (Some seeded_store)
     = (Return (RequestValidationError ["brand"]), Some seeded_store).
Proof.
  assert (Hv : validate_product (C := native) duracell_body = inl ["brand"])
    by (vm_compute; reflexivity).
  split; [exact Hv|].
  exact (rejection_lists_declared_fields (C := native) duracell_body ["brand"]
           (Some seeded_store) Hv).
Defined.

(** X3 for a price of -1 and a warranty of -3 months. *)
Lemma negative_numbers_are_rejected_witness :
  (JFloat (-1)%Q <> JNull
   /\ negative_price_body !! "price" = Some (JFloat (-1)%Q)
   /\ (-1 < 0)%Q
   /\ exists fields,
        post_api_products (C := native) negative_price_body (Some seeded_store)
        = (Return (RequestValidationError fields), Some seeded_store)
        /\ "price" ∈ fields)
  /\ (JInt (-3) <> JNull
      /\ negative_warranty_body !! "warranty_months" = Some (JInt (-3))
      /\ (-3 < 0)%Z
      /\ exists fields,
           post_api_products (C := native) negative_warranty_body
             (Some seeded_store)
           = (Return (RequestValidationError fields), Some seeded_store)
           /\ "warranty_months" ∈ fields).
Proof.
  assert (H1 : JFloat (-1)%Q <> JNull) by discriminate.
  assert (H2 : negative_price_body !! "price" = Some (JFloat (-1)%Q))
    by reflexivity.
  assert (H3 : (-1 < 0)%Q) by reflexivity.
  assert (H4 : JInt (-3) <> JNull) by discriminate.
  assert (H5 : negative_warranty_body !! "warranty_months" = Some (JInt (-3)))
    by reflexivity.
  assert (H6 : (-3 < 0)%Z) by lia.
  split.
  - split; [exact H1|]. split; [exact H2|]. split; [exact H3|].
    exact (proj1 (negative_numbers_are_rejected (C := native)
                    negative_price_body (JFloat (-1)%Q) (Some seeded_store) H1)
             "price" (-1)%Q (or_intror eq_refl) H2 eq_refl H3).
  - split; [exact H4|]. split; [exact H5|]. split; [exact H6|].
    exact (proj2 (negative_numbers_are_rejected (C := native)
                    negative_warranty_body (JInt (-3)) (Some seeded_store) H4)
             (-3)%Z H5 eq_refl H6).
Defined.

(** X4 for a body that carries an ["_id"]. *)
Lemma unknown_members_are_ignored_witness :
  (("_id" ∉ product_model_fields)
   /\ validate_product (C := native) (<["_id" := JStr "0"]> inverter_body)
      = validate_product (C := native) inverter_body)
  /\ (("_id" ∉ inquiry_model_fields)
      /\ validate_inquiry (<["_id" := JStr "0"]> callback_body)
         = validate_inquiry callback_body).
Proof.
  assert (H1 : "_id" ∉ product_model_fields)
    by (apply (bool_decide_unpack _); vm_compute; exact I).
  assert (H2 : "_id" ∉ inquiry_model_fields)
    by (apply (bool_decide_unpack _); vm_compute; exact I).
  split.
  - split; [exact H1|].
    exact (proj1 (unknown_members_are_ignored (C := native) inverter_body
                    "_id" (JStr "0")) H1).
  - split; [exact H2|].
    exact (proj2 (unknown_members_are_ignored (C := native) callback_body
                    "_id" (JStr "0")) H2).
Defined.

(** X5 for the inverter and the callback. *)
Lemma dump_has_the_schema_fields_witness :
  exists product_schema inquiry_schema,
    get_schema !! "collections" = Some [product_schema; inquiry_schema]
    /\ schema_name product_schema = "product"
    /\ schema_name inquiry_schema = "inquiry"
    /\ (forall k, is_Some (model_dump inverter !! k)
                  <-> k ∈ schema_fields product_schema)
    /\ (forall k, is_Some (model_dump callback !! k)
                  <-> k ∈ schema_fields inquiry_schema).
Proof. exact (dump_has_the_schema_fields inverter callback). Defined.

(** X6 for an Exide inverter. *)
Lemma offered_values_are_the_accepted_ones_witness :
  ("Exide" ∈ default [] (get_brands !! "brands")
   /\ "inverter" ∈ default [] (get_types !! "types"))
  /\ validate_product (C := native)
       {[ "name" := JStr "Star"; "brand" := JStr "Exide";
          "type" := JStr "inverter" ]}
     = inr {| name := "Star"; brand := "Exide"; type := "inverter";
              capacity_ah := None; warranty_months := None; price := None;
              description := None; in_stock := true |}.
Proof.
  assert (H : "Exide" ∈ default [] (get_brands !! "brands")
              /\ "inverter" ∈ default [] (get_types !! "types")).
  { split; apply (bool_decide_unpack _); vm_compute; exact I. }
  split; [exact H|].
  exact (proj1 (offered_values_are_the_accepted_ones (C := native)
                  "Star" "Exide" "inverter") H).
Defined.

(** X7 for the brand "Okaya". *)
Lemma inquiry_brand_and_type_are_free_text_witness :
  validate_inquiry callback_body = inr callback
  /\ validate_inquiry (<["brand" := JStr "Okaya"]> callback_body)
     = inr {| inq_name := "Asha"; phone := "9876543210"; message := None;
              product_type := None; inq_brand := Some "Okaya";
              preferred_contact := "whatsapp";
              city := Some "Veraval, Gir Somnath" |}
  /\ validate_inquiry (<["product_type" := JStr "Okaya"]> callback_body)
     = inr {| inq_name := "Asha"; phone := "9876543210"; message := None;
              product_type := Some "Okaya"; inq_brand := None;
              preferred_contact := "whatsapp";
              city := Some "Veraval, Gir Somnath" |}.
Proof.
  assert (Hv : validate_inquiry callback_body = inr callback)
    by (vm_compute; reflexivity).
  split; [exact Hv|].
  exact (inquiry_brand_and_type_are_free_text callback_body callback "Okaya" Hv).
Defined.

(** X8 for the contact "email". *)
Lemma unknown_contact_is_rejected_witness :
  email_body !! "preferred_contact" = Some (JStr "email")
  /\ (forall s, JStr "email" = JStr s -> s ∉ contact_literals)
  /\ exists fields,
       post_api_inquiries email_body (Some seeded_store)
       = (Return (RequestValidationError fields), Some seeded_store)
       /\ "preferred_contact" ∈ fields.
Proof.
  assert (H1 : email_body !! "preferred_contact" = Some (JStr "email"))
    by reflexivity.
  assert (H2 : forall s, JStr "email" = JStr s -> s ∉ contact_literals).
  { intros s [= <-]. apply (bool_decide_unpack _). vm_compute. exact I. }
  split; [exact H1|]. split; [exact H2|].
  exact (unknown_contact_is_rejected email_body (JStr "email")
           (Some seeded_store) H1 H2).
Defined.

(** X9 for a body without city, with a null city and with the city "Una". *)
Lemma city_default_needs_absence_witness :
  (validate_inquiry callback_body = inr callback
   /\ callback_body !! "city" = None
   /\ city callback = Some "Veraval, Gir Somnath")
  /\ (validate_inquiry no_city_body = inr callback_without_city
      /\ no_city_body !! "city" = Some JNull
      /\ city callback_without_city = None
      /\ model_dump callback_without_city !! "city" = Some VNone)
  /\ (validate_inquiry city_body = inr callback_from_una
      /\ city_body !! "city" = Some (JStr "Una")
      /\ city callback_from_una = Some "Una"
      /\ model_dump callback_from_una !! "city" = Some (VStr "Una")).
Proof.
  assert (H1 : validate_inquiry callback_body = inr callback)
    by (vm_compute; reflexivity).
  assert (H2 : validate_inquiry no_city_body = inr callback_without_city)
    by (vm_compute; reflexivity).
  assert (H3 : validate_inquiry city_body = inr callback_from_una)
    by (vm_compute; reflexivity).
  split; [|split].
  - split; [exact H1|]. split; [reflexivity|].
    exact (proj1 (city_default_needs_absence callback_body callback H1)
             eq_refl).
  - split; [exact H2|]. split; [reflexivity|].
    exact (proj1 (proj2 (city_default_needs_absence no_city_body
                           callback_without_city H2)) eq_refl).
  - split; [exact H3|]. split; [reflexivity|].
    exact (proj2 (proj2 (city_default_needs_absence city_body
                           callback_from_una H3)) "Una" eq_refl).
Defined.

(** X10 for the inverter body on the seeded catalogue. *)
Lemma creation_appends_one_record_witness :
  validate_product (C := native) inverter_body = inr inverter
  /\ reachable seeded_store
  /\ exists d',
       post_api_products (C := native) inverter_body (Some seeded_store)
       = (Return (Response 201 {| id := id_text (next_id seeded_store);
                                  created_message := "Product added" |}),
          Some d')
       /\ collection "product" d'
          = collection "product" seeded_store
            ++ [<["_id" := VObjectId (next_id seeded_store)]>
                  (model_dump inverter)]
       /\ (forall c, c <> "product" ->
             collection c d' = collection c seeded_store)
       /\ reachable d'.
Proof.
  assert (Hv : validate_product (C := native) inverter_body = inr inverter)
    by (vm_compute; reflexivity).
  assert (Hr : reachable seeded_store) by (vm_compute; reflexivity).
  split; [exact Hv|]. split; [exact Hr|].
  exact (creation_appends_one_record (C := native) inverter_body inverter
           seeded_store Hv Hr).
Defined.

(** X11 for the inverter body sent twice. *)
Lemma same_body_twice_is_stored_twice_witness :
  validate_product (C := native) inverter_body = inr inverter
  /\ reachable seeded_store
  /\ exists c1 c2 d1 d2 doc1 doc2,
       post_api_products (C := native) inverter_body (Some seeded_store)
       = (Return (Response 201 c1), Some d1)
       /\ post_api_products (C := native) inverter_body (Some d1)
          = (Return (Response 201 c2), Some d2)
       /\ id c1 <> id c2
       /\ collection "product" d2
          = collection "product" seeded_store ++ [doc1; doc2]
       /\ delete "_id" doc1 = model_dump inverter
       /\ delete "_id" doc2 = model_dump inverter
       /\ doc1 !! "_id" <> doc2 !! "_id".
Proof.
  assert (Hv : validate_product (C := native) inverter_body = inr inverter)
    by (vm_compute; reflexivity).
  assert (Hr : reachable seeded_store) by (vm_compute; reflexivity).
  split; [exact Hv|]. split; [exact Hr|].
  exact (same_body_twice_is_stored_twice (C := native) inverter_body inverter
           seeded_store Hv Hr).
Defined.

(** X12 for the first two products of the seeded catalogue. *)
Lemma listed_items_have_no_id_witness :
  get_api_products None None None (Some 2%Z) (Some seeded_store)
  = (Return (Response 200 first_two), Some seeded_store)
  /\ forall item, item ∈ items first_two -> item !! "_id" = None.
Proof.
  assert (Hg : get_api_products None None None (Some 2%Z) (Some seeded_store)
               = (Return (Response 200 first_two), Some seeded_store))
    by (vm_compute; reflexivity).
  split; [exact Hg|].
  exact (listed_items_have_no_id None None None (Some 2%Z) (Some seeded_store)
           (Some seeded_store) first_two Hg).
Defined.

(** X13 on a store that cannot be reached. *)
Lemma lost_store_is_a_server_error_witness :
  outage unreachable_store = Some 0
  /\ get_api_products (Some "Exide") None (Some "x.lore") None
       (Some unreachable_store)
     = (Return (ErrorResponse 500 "Internal Server Error"),
        Some unreachable_store)
  /\ (validate_product (C := native) inverter_body = inr inverter
      /\ post_api_products (C := native) inverter_body (Some unreachable_store)
         = (Return (ErrorResponse 500 "Internal Server Error"),
            Some unreachable_store))
  /\ (validate_inquiry callback_body = inr callback
      /\ post_api_inquiries callback_body (Some unreachable_store)
         = (Return (ErrorResponse 500 "Internal Server Error"),
            Some unreachable_store)).
Proof.
  assert (Ho : outage unreachable_store = Some 0) by reflexivity.
  assert (Hp : validate_product (C := native) inverter_body = inr inverter)
    by (vm_compute; reflexivity).
  assert (Hi : validate_inquiry callback_body = inr callback)
    by (vm_compute; reflexivity).
  split; [exact Ho|]. split; [|split].
  - exact (proj1 (lost_store_is_a_server_error (C := native) (Some "Exide")
                    None (Some "x.lore") None inverter_body
                    unreachable_store Ho)).
  - split; [exact Hp|].
    exact (proj1 (proj2 (lost_store_is_a_server_error (C := native) None None
                           None None inverter_body unreachable_store Ho))
             inverter Hp).
  - split; [exact Hi|].
    exact (proj2 (proj2 (lost_store_is_a_server_error (C := native) None None
                           None None callback_body unreachable_store Ho))
             callback Hi).
Defined.

(** X14 for the first Exide product of the seeded catalogue. *)
Lemma listing_is_the_filtered_prefix_witness :
  reachable seeded_store
  /\ (0 < default 50%Z (Some 1%Z))%Z
  /\ get_api_products (Some "Exide") None None (Some 1%Z) (Some seeded_store)
     = (Return (Response 200
          {| items :=
               delete "_id"
                 <$> take (Z.to_nat (default 50%Z (Some 1%Z)))
                       (List.filter (in_scope (Some "Exide") None)
                          (collection "product" seeded_store));
             total :=
               length (take (Z.to_nat (default 50%Z (Some 1%Z)))
                         (List.filter (in_scope (Some "Exide") None)
                            (collection "product" seeded_store))) |}),
        Some seeded_store).
Proof.
  assert (Hr : reachable seeded_store) by (vm_compute; reflexivity).
  assert (Hl : (0 < default 50%Z (Some 1%Z))%Z) by (simpl; lia).
  split; [exact Hr|]. split; [exact Hl|].
  exact (listing_is_the_filtered_prefix (Some "Exide") None (Some 1%Z)
           seeded_store Hr Hl).
Defined.

(** X15 on the fresh store. *)
Lemma seeding_writes_a_prefix_of_the_samples_witness :
  collection "product" fresh_store = []
  /\ exists n d',
       seed_products (Some fresh_store) = (Return tt, Some d')
       /\ n <= 6
       /\ collection "product" d' = stamp (next_id fresh_store) (take n samples)
       /\ (forall c, c <> "product" -> collection c d' = collection c fresh_store)
       /\ (reachable fresh_store ->
           collection "product" d' = stamp (next_id fresh_store) samples).
Proof.
  assert (Hc : collection "product" fresh_store = []) by reflexivity.
  split; [exact Hc|].
  exact (seeding_writes_a_prefix_of_the_samples fresh_store Hc).
Defined.

(** X16 for a morning of requests on the fresh store. *)
Lemma catalogue_stays_valid_witness :
  valid_catalogue (Some fresh_store)
  /\ valid_catalogue (after_all (C := native) morning (Some fresh_store)).
Proof.
  assert (Hv : valid_catalogue (Some fresh_store)) by constructor.
  split; [exact Hv|].
  exact (catalogue_stays_valid (C := native) morning (Some fresh_store) Hv).
Defined.

(** X18 on the fresh store, with the default limit. *)
Lemma seeded_store_lists_the_samples_witness :
  reachable fresh_store
  /\ collection "product" fresh_store = []
  /\ (6 <= 50)%Z
  /\ exists d',
       seed_products (Some fresh_store) = (Return tt, Some d')
       /\ get_api_products None None None (Some 50%Z) (Some d')
          = (Return (Response 200 {| items := samples; total := 6 |}), Some d').
Proof.
  assert (Hr : reachable fresh_store) by reflexivity.
  assert (Hc : collection "product" fresh_store = []) by reflexivity.
  assert (Hl : (6 <= 50)%Z) by lia.
  split; [exact Hr|]. split; [exact Hc|]. split; [exact Hl|].
  exact (seeded_store_lists_the_samples fresh_store 50%Z Hr Hc Hl).
Defined.

(** X19 for the callback on the seeded catalogue. *)
Lemma inquiry_leaves_listings_alone_witness :
  reachable seeded_store
  /\ fst (get_api_products (Some "Exide") None (Some "x.lore") None
            (snd (post_api_inquiries callback_body (Some seeded_store))))
     = fst (get_api_products (Some "Exide") None (Some "x.lore") None
              (Some seeded_store)).
Proof.
  assert (Hr : reachable seeded_store) by (vm_compute; reflexivity).
  split; [exact Hr|].
  exact (inquiry_leaves_listings_alone callback_body (Some "Exide") None
           (Some "x.lore") None seeded_store Hr).
Defined.

(** X20 on the seeded catalogue. *)
Lemma diagnostics_only_read_witness :
  exists r db' reported,
    get_test ∅ (Some seeded_store) = (Return (Response 200 r), db')
    /\ r !! "collections" = Some (DList reported)
    /\ length reported <= 10
    /\ NoDup reported
    /\ (forall n, n ∈ reported ->
          exists d, Some seeded_store = Some d /\ is_Some (collections d !! n))
    /\ match Some seeded_store, db' with
       | Some d, Some d' =>
           collections d' = collections d /\ next_id d' = next_id d
       | None, None => True
       | _, _ => False
       end.
Proof. exact (diagnostics_only_read ∅ (Some seeded_store)). Defined.

(** X21 for "rider" and "RIDER". *)
Lemma query_case_is_ignored_witness :
  plain "rider" = true
  /\ plain "RIDER" = true
  /\ casefold (list_ascii_of_string "rider")
     = casefold (list_ascii_of_string "RIDER")
  /\ get_api_products None None (Some "rider") None (Some seeded_store)
     = get_api_products None None (Some "RIDER") None (Some seeded_store).
Proof.
  assert (H1 : plain "rider" = true) by (vm_compute; reflexivity).
  assert (H2 : plain "RIDER" = true) by (vm_compute; reflexivity).
  assert (H3 : casefold (list_ascii_of_string "rider")
               = casefold (list_ascii_of_string "RIDER"))
    by (vm_compute; reflexivity).
  split; [exact H1|]. split; [exact H2|]. split; [exact H3|].
  exact (query_case_is_ignored None None "rider" "RIDER" None
           (Some seeded_store) H1 H2 H3).
Defined.

(** X17 for the brand "Duracell" and the type "solar-panel" on the seeded
    catalogue. *)
Lemma unknown_brand_or_type_lists_nothing_witness :
  valid_catalogue (Some seeded_store)
  /\ reachable seeded_store
  /\ (truthy (Some "Duracell") = Some "Duracell"
      /\ ("Duracell" ∉ default [] (get_brands !! "brands")))
  /\ (truthy (Some "solar-panel") = Some "solar-panel"
      /\ ("solar-panel" ∉ default [] (get_types !! "types")))
  /\ get_api_products (Some "Duracell") None None None (Some seeded_store)
     = (Return (Response 200 {| items := []; total := 0 |}), Some seeded_store)
  /\ get_api_products None (Some "solar-panel") None None (Some seeded_store)
     = (Return (Response 200 {| items := []; total := 0 |}), Some seeded_store).
Proof.
  assert (Hs : after (C := native) Startup (Some fresh_store)
               = Some seeded_store) by (vm_compute; reflexivity).
  assert (Hv : valid_catalogue (Some seeded_store)).
  { rewrite <- Hs. apply after_keeps_valid. constructor. }
  assert (Hr : reachable seeded_store) by (vm_compute; reflexivity).
  assert (Hb : truthy (Some "Duracell") = Some "Duracell"
               /\ ("Duracell" ∉ default [] (get_brands !! "brands"))).
  { split; [reflexivity|]. apply (bool_decide_unpack _). vm_compute. exact I. }
  assert (Ht : truthy (Some "solar-panel") = Some "solar-panel"
               /\ ("solar-panel" ∉ default [] (get_types !! "types"))).
  { split; [reflexivity|]. apply (bool_decide_unpack _). vm_compute. exact I. }
  split; [exact Hv|]. split; [exact Hr|]. split; [exact Hb|].
  split; [exact Ht|]. split.
  - exact (unknown_brand_or_type_lists_nothing (Some "Duracell") None None
             seeded_store "Duracell" Hv Hr (or_introl Hb)).
  - exact (unknown_brand_or_type_lists_nothing None (Some "solar-panel") None
             seeded_store "solar-panel" Hv Hr (or_intror Ht)).
Defined.
